(** * The VFX ticket dashboard ([app/main.py]): a shallow embedding

    The program is one FastAPI module.  Its request handlers are embedded
    as functions in a small exception-and-state monad over a [World] that
    supplies the readings of [datetime.now()] and collects the log; the
    framework's routing is embedded as first-match dispatch over the route
    table in registration order.

    What the module uses but does not define is a parameter of the
    handlers, gathered in the record [Env]: Python's [hash], the text that
    [str] gives for an [HTTPException], whether the response model
    requires the [Optional] fields that carry no default, the
    configuration read from the environment, the two upstream OAuth
    endpoints, the markdown renderer, the tickets directory and the
    encoder that the framework applies to what the callback returns.
    The module is taken as loaded: every module-level statement has
    run. *)

From Stdlib Require Import ZArith List String Ascii Bool Lia QArith DecimalString.
Import ListNotations.
Local Open Scope string_scope.
Local Open Scope Z_scope.

(** ** Strings *)

(** A line feed, and text given line by line. *)
Definition LF : string := String (ascii_of_nat 10) "".

Fixpoint unlines (ls : list string) : string :=
  match ls with
  | [] => ""
  | [l] => l
  | l :: rest => l ++ LF ++ unlines rest
  end.

(** [s[:n]] *)
Definition py_prefix (n : nat) (s : string) : string := substring 0 n s.

(** [str(i)] for an [int]. *)
Definition str_int (z : Z) : string := NilZero.string_of_int (Z.to_int z).

(** [repr(s)] for a string without quotes, backslashes or control
    characters (the only ones that are subscripted with here). *)
Definition repr_str (s : string) : string := "'" ++ s ++ "'".

Definition digit (n : Z) : ascii := ascii_of_nat (48 + Z.to_nat (n mod 10)).

Definition pad2 (n : Z) : string :=
  String (digit (n / 10)) (String (digit n) "").

Definition pad4 (n : Z) : string :=
  String (digit (n / 1000)) (String (digit (n / 100)) (pad2 n)).

Definition pad6 (n : Z) : string :=
  String (digit (n / 100000)) (String (digit (n / 10000)) (pad4 n)).

(** ** [datetime] and [timedelta]

    A naive [datetime] is a point on the proleptic Gregorian time line; it
    is represented by its distance from 0001-01-01T00:00:00 in
    microseconds, a [timedelta] by its length in microseconds.  The
    calendar fields are recovered as the standard library does
    ([_ord2ymd]); years run from 1 to 9999 ([MAXYEAR]), so four digits
    hold [%Y]. *)
Module Datetime.

Definition datetime := Z.
Definition timedelta := Z.

Definition us_per_day : Z := 86400000000.
Definition days (n : Z) : timedelta := n * us_per_day.
Definition hours (n : Z) : timedelta := n * 3600000000.

Definition sub (d : datetime) (t : timedelta) : datetime := d - t.

(** [d.toordinal()]: day 1 is 0001-01-01. *)
Definition toordinal (d : datetime) : Z := d / us_per_day + 1.

Definition days_before_month (m : Z) : Z :=
  nth (Z.to_nat m) [0; 0; 31; 59; 90; 120; 151; 181; 212; 243; 273; 304; 334] 0.

Definition days_in_month (m : Z) : Z :=
  nth (Z.to_nat m) [0; 31; 28; 31; 30; 31; 30; 31; 31; 30; 31; 30; 31] 0.

(** [_ord2ymd(n)]: ordinal to (year, month, day). *)
Definition ord2ymd (n : Z) : Z * Z * Z :=
  let n := n - 1 in
  let n400 := n / 146097 in
  let n := n mod 146097 in
  let year := n400 * 400 + 1 in
  let n100 := n / 36524 in
  let n := n mod 36524 in
  let n4 := n / 1461 in
  let n := n mod 1461 in
  let n1 := n / 365 in
  let n := n mod 365 in
  let year := year + n100 * 100 + n4 * 4 + n1 in
  if (n1 =? 4) || (n100 =? 4) then (year - 1, 12, 31)
  else
    let leapyear := (n1 =? 3) && (negb (n4 =? 24) || (n100 =? 3)) in
    let month := Z.shiftr (n + 50) 5 in
    let preceding :=
      days_before_month month + (if (2 <? month) && leapyear then 1 else 0) in
    if n <? preceding then
      let month := month - 1 in
      let preceding :=
        preceding
        - (days_in_month month + (if (month =? 2) && leapyear then 1 else 0)) in
      (year, month, n - preceding + 1)
    else (year, month, n - preceding + 1).

(** [d.strftime('%Y%m%d')] *)
Definition strftime_Ymd (d : datetime) : string :=
  let '(y, m, dd) := ord2ymd (toordinal d) in
  pad4 y ++ pad2 m ++ pad2 dd.

(** [d.isoformat()]: the fraction is written only when it is not zero. *)
Definition isoformat (d : datetime) : string :=
  let '(y, m, dd) := ord2ymd (toordinal d) in
  let us := d mod us_per_day in
  pad4 y ++ "-" ++ pad2 m ++ "-" ++ pad2 dd ++ "T"
  ++ pad2 (us / 3600000000) ++ ":" ++ pad2 (us / 60000000 mod 60)
  ++ ":" ++ pad2 (us / 1000000 mod 60)
  ++ (if us mod 1000000 =? 0 then "" else "." ++ pad6 (us mod 1000000)).

(** Midnight of a calendar day given by its ordinal, plus an offset
    into the day. *)
Definition at_ordinal (ord : Z) (us : Z) : datetime :=
  (ord - 1) * us_per_day + us.

End Datetime.
Import Datetime.

(** ** Exceptions, results and the handler monad *)

Inductive exn : Type :=
| HTTPException (status_code : Z) (detail : string)
| ValidationError (model : string) (missing : list string)
| PyError (cls : string) (message : string).

Inductive res (A : Type) : Type :=
| Ok (a : A)
| Raised (e : exn).
Arguments Ok {A} a.
Arguments Raised {A} e.

(** The world a handler runs in: [clock n] is what the [n]-th call of
    [datetime.now()] returns, [ticks] counts the calls made so far, and
    [logs] is what [logger] has written, oldest first. *)
Record World : Type := mkWorld {
  clock : nat -> datetime;
  ticks : nat;
  logs : list string
}.

Definition M (A : Type) : Type := World -> res A * World.

Definition ret {A} (a : A) : M A := fun w => (Ok a, w).

Definition bind {A B} (m : M A) (k : A -> M B) : M B :=
  fun w =>
    match m w with
    | (Ok a, w') => k a w'
    | (Raised e, w') => (Raised e, w')
    end.

Definition raise {A} (e : exn) : M A := fun w => (Raised e, w).

(** [try: m  except Exception as e: h e] *)
Definition try_except {A} (m : M A) (h : exn -> M A) : M A :=
  fun w =>
    match m w with
    | (Ok a, w') => (Ok a, w')
    | (Raised e, w') => h e w'
    end.

Definition lift {A} (r : res A) : M A := fun w => (r, w).

Definition now : M datetime :=
  fun w => (Ok (clock w (ticks w)),
            {| clock := clock w; ticks := S (ticks w); logs := logs w |}).

Definition log (line : string) : M unit :=
  fun w => (Ok tt,
            {| clock := clock w; ticks := ticks w; logs := logs w ++ [line] |}).

(** [logging.basicConfig(level=logging.INFO)]: records at INFO and above
    are written, DEBUG records are dropped. *)
Definition logger_info (line : string) : M unit := log line.
Definition logger_error (line : string) : M unit := log line.
Definition logger_debug (line : string) : M unit := fun w => (Ok tt, w).

Declare Scope monad_scope.
Delimit Scope monad_scope with monad.
Notation "x <- m ;; k" := (bind m (fun x => k))
  (at level 61, m at next level, right associativity) : monad_scope.
Notation "m ;;; k" := (bind m (fun _ => k))
  (at level 61, right associativity) : monad_scope.
Local Open Scope monad_scope.

(** ** JSON-like values: what handlers return as plain dicts and what the
    upstream endpoints answer *)

(** The floats that are not numbers of the rationals.  [json.loads]
    reads [NaN], [Infinity] and [-Infinity], and a literal too large for
    a double such as [1e999], as one of them. *)
Inductive non_finite : Type := NaN | Infinity | NegInfinity.

#[warnings="-register-all"]
Inductive json : Type :=
| JNull
| JBool (b : bool)
| JInt (z : Z)
| JFloat (q : Q)
| JNonFinite (x : non_finite)
| JStr (s : string)
| JDatetime (d : datetime)
| JList (l : list json)
| JDict (d : list (string * json)).

Fixpoint dict_get {V} (k : string) (d : list (string * V)) : option V :=
  match d with
  | [] => None
  | (k', v) :: rest => if String.eqb k k' then Some v else dict_get k rest
  end.

(** [v[key]] for a string key. *)
Definition subscript (v : json) (key : string) : res json :=
  match v with
  | JDict d =>
      match dict_get key d with
      | Some x => Ok x
      | None => Raised (PyError "KeyError" (repr_str key))
      end
  | JList _ =>
      Raised (PyError "TypeError" "list indices must be integers or slices, not str")
  | JStr _ =>
      Raised (PyError "TypeError" "string indices must be integers, not 'str'")
  | JNull => Raised (PyError "TypeError" "'NoneType' object is not subscriptable")
  | JBool _ => Raised (PyError "TypeError" "'bool' object is not subscriptable")
  | JInt _ => Raised (PyError "TypeError" "'int' object is not subscriptable")
  | JFloat _ | JNonFinite _ =>
      Raised (PyError "TypeError" "'float' object is not subscriptable")
  | JDatetime _ =>
      Raised (PyError "TypeError" "'datetime.datetime' object is not subscriptable")
  end.

(** ** The ticket models *)

Inductive TicketStatus : Type := OPEN | IN_PROGRESS | RESOLVED | CLOSED.
Inductive TicketPriority : Type := LOW | MEDIUM | HIGH | CRITICAL.
Inductive TicketType : Type := BUG | FEATURE | TASK | TECHNICAL_DEBT.

Definition TicketStatus_value (s : TicketStatus) : string :=
  match s with
  | OPEN => "open" | IN_PROGRESS => "in_progress"
  | RESOLVED => "resolved" | CLOSED => "closed"
  end.

Definition TicketPriority_value (p : TicketPriority) : string :=
  match p with
  | LOW => "low" | MEDIUM => "medium" | HIGH => "high" | CRITICAL => "critical"
  end.

Definition TicketType_value (t : TicketType) : string :=
  match t with
  | BUG => "bug" | FEATURE => "feature" | TASK => "task"
  | TECHNICAL_DEBT => "technical_debt"
  end.

Module TicketCreate.
Record t : Type := mk {
  title : string;
  description : string;
  status : TicketStatus;               (* default OPEN *)
  priority : TicketPriority;
  type_ : TicketType;
  assigned_to : option string;
  project_id : string;
  asset_id : option string;
  shot_id : option string;
  due_date : option datetime;
  tags : list string;
  environment : option string;
  reproducibility_steps : option string;
  time_estimate : option Q
}.
End TicketCreate.

Module TicketResponse.
Record t : Type := mk {
  id : string;
  title : string;
  description : string;
  status : TicketStatus;
  priority : TicketPriority;
  type_ : TicketType;
  created_by : string;
  assigned_to : option string;
  project_id : string;
  created_at : datetime;
  updated_at : datetime;
  due_date : option datetime;
  tags : list string;
  environment : option string;
  time_estimate : option Q;
  time_spent : option Q                 (* default 0.0 *)
}.

(** The keyword arguments of one call [TicketResponse(...)].  The
    fields declared [Optional[...]] without a default, and [time_spent],
    may be left out of a call: [None] at the outer level stands for a
    keyword that is not passed. *)
Record kwargs : Type := mk_kwargs {
  kw_id : string;
  kw_title : string;
  kw_description : string;
  kw_status : TicketStatus;
  kw_priority : TicketPriority;
  kw_type : TicketType;
  kw_created_by : string;
  kw_assigned_to : option (option string);
  kw_project_id : string;
  kw_created_at : datetime;
  kw_updated_at : datetime;
  kw_due_date : option (option datetime);
  kw_tags : list string;
  kw_environment : option (option string);
  kw_time_estimate : option (option Q);
  kw_time_spent : option (option Q)
}.

Definition missing_of {A} (name : string) (o : option A) : list string :=
  match o with
  | Some _ => []
  | None => [name]
  end.

Definition default_of {A} (d : option A) (o : option (option A)) : option A :=
  match o with
  | Some v => v
  | None => d
  end.

(** The [Optional] fields without default that a call leaves out. *)
Definition omitted (k : kwargs) : list string :=
  missing_of "assigned_to" (kw_assigned_to k)
  ++ missing_of "due_date" (kw_due_date k)
  ++ missing_of "environment" (kw_environment k)
  ++ missing_of "time_estimate" (kw_time_estimate k).

Definition fill (k : kwargs) : t :=
  {| id := kw_id k; title := kw_title k; description := kw_description k;
     status := kw_status k; priority := kw_priority k; type_ := kw_type k;
     created_by := kw_created_by k;
     assigned_to := default_of None (kw_assigned_to k);
     project_id := kw_project_id k;
     created_at := kw_created_at k; updated_at := kw_updated_at k;
     due_date := default_of None (kw_due_date k);
     tags := kw_tags k;
     environment := default_of None (kw_environment k);
     time_estimate := default_of None (kw_time_estimate k);
     time_spent := default_of (Some (0 # 1)%Q) (kw_time_spent k) |}.

(** The call of [TicketResponse] with keywords [k].  [optional_required] says whether the model
    class requires an [Optional] field that has no default (pydantic 2)
    or fills it with [None] (pydantic 1). *)
Definition new (optional_required : bool) (k : kwargs) : res t :=
  match omitted k with
  | [] => Ok (fill k)
  | (_ :: _) as fields =>
      if optional_required
      then Raised (ValidationError "TicketResponse" fields)
      else Ok (fill k)
  end.
End TicketResponse.

Module TicketComment.
Record t : Type := mk {
  content : string;
  author : string;
  created_at : datetime;               (* default_factory=datetime.now *)
  attachments : list string
}.
End TicketComment.

Module TicketUpdate.
Record t : Type := mk {
  title : option string;
  description : option string;
  status : option TicketStatus;
  priority : option TicketPriority;
  assigned_to : option string;
  due_date : option datetime;
  tags : option (list string)
}.
End TicketUpdate.

(** [x or d] for an optional string: [None] and [""] are both falsy. *)
Definition or_str (x : option string) (d : string) : string :=
  match x with
  | Some EmptyString | None => d
  | Some s => s
  end.

(** [x or d] for an optional enum member (members are non-empty strings,
    hence truthy). *)
Definition or_enum {A} (x : option A) (d : A) : A :=
  match x with
  | Some a => a
  | None => d
  end.

(** [x or []] for an optional list. *)
Definition or_list {A} (x : option (list A)) : list A :=
  match x with
  | Some (a :: l) => a :: l
  | Some [] | None => []
  end.

(** ** HTTP responses *)

Inductive content : Type :=
| Ticket (t : TicketResponse.t)
| Tickets (ts : list TicketResponse.t)
| Json (v : json)
| Detail (d : string)                    (* the body {"detail": d} *)
| Redirect (location : string)
| PlainText (s : string)
| RequestErrors.                         (* the error list of a 422 *)

Record http_response : Type := mk_response {
  status_code : Z;
  body : content
}.

(** [RedirectResponse(url=...)]: the status code defaults to 307. *)
Definition RedirectResponse (url : string) : http_response :=
  {| status_code := 307; body := Redirect url |}.

(** ** The ticket handlers *)

Section Tickets.

(** Python's [hash] of a [datetime]. *)
Variable py_hash : datetime -> Z.

(** Whether [TicketResponse] requires its [Optional] fields that have no
    default. *)
Variable optional_required : bool.

(** [create_ticket], line 1558: the first handler registered for
    [POST /api/tickets]. *)
Definition create_ticket (ticket : TicketCreate.t) (current_user : string)
  : M TicketResponse.t :=
  d <- now ;;
  h <- now ;;
  let ticket_id :=
    py_prefix 16 ("TICKET-" ++ strftime_Ymd d ++ "-" ++ str_int (py_hash h)) in
  created <- now ;;
  updated <- now ;;
  lift (TicketResponse.new optional_required
    {| TicketResponse.kw_id := ticket_id;
       (* **ticket.dict() *)
       TicketResponse.kw_title := TicketCreate.title ticket;
       TicketResponse.kw_description := TicketCreate.description ticket;
       TicketResponse.kw_status := TicketCreate.status ticket;
       TicketResponse.kw_priority := TicketCreate.priority ticket;
       TicketResponse.kw_type := TicketCreate.type_ ticket;
       TicketResponse.kw_assigned_to := Some (TicketCreate.assigned_to ticket);
       TicketResponse.kw_project_id := TicketCreate.project_id ticket;
       TicketResponse.kw_due_date := Some (TicketCreate.due_date ticket);
       TicketResponse.kw_tags := TicketCreate.tags ticket;
       TicketResponse.kw_environment := Some (TicketCreate.environment ticket);
       TicketResponse.kw_time_estimate := Some (TicketCreate.time_estimate ticket);
       (* the remaining keywords of the call *)
       TicketResponse.kw_created_by := current_user;
       TicketResponse.kw_created_at := created;
       TicketResponse.kw_updated_at := updated;
       TicketResponse.kw_time_spent := Some (Some (0 # 1)%Q) |}).

(** The mock ticket that [get_ticket] and [list_tickets] build. *)
Definition sample_ticket (ticket_id : string) (created updated : datetime)
  : TicketResponse.kwargs :=
  {| TicketResponse.kw_id := ticket_id;
     TicketResponse.kw_title := "Sample Ticket";
     TicketResponse.kw_description := "This is a sample ticket";
     TicketResponse.kw_status := OPEN;
     TicketResponse.kw_priority := MEDIUM;
     TicketResponse.kw_type := TASK;
     TicketResponse.kw_created_by := "user123";
     TicketResponse.kw_assigned_to := Some None;
     TicketResponse.kw_project_id := "project123";
     TicketResponse.kw_created_at := created;
     TicketResponse.kw_updated_at := updated;
     TicketResponse.kw_due_date := None;
     TicketResponse.kw_tags := ["sample"];
     TicketResponse.kw_environment := Some (Some "maya_2024");
     TicketResponse.kw_time_estimate := None;
     TicketResponse.kw_time_spent := None |}.

(** [get_ticket], line 1584. *)
Definition get_ticket (ticket_id : string) : M TicketResponse.t :=
  created <- now ;;
  updated <- now ;;
  lift (TicketResponse.new optional_required
          (sample_ticket ticket_id created updated)).

(** [list_tickets], line 1605: the first handler registered for
    [GET /api/tickets].  The four filters are accepted and not used. *)
Definition list_tickets
  (status : option TicketStatus) (priority : option TicketPriority)
  (assigned_to project_id : option string) : M (list TicketResponse.t) :=
  created <- now ;;
  updated <- now ;;
  t <- lift (TicketResponse.new optional_required
               (sample_ticket "TICKET-123" created updated)) ;;
  ret [t].

(** [update_ticket], line 1650. *)
Definition update_ticket (ticket_id : string) (update : TicketUpdate.t)
  (current_user : string) : M TicketResponse.t :=
  n <- now ;;
  updated <- now ;;
  lift (TicketResponse.new optional_required
    {| TicketResponse.kw_id := ticket_id;
       TicketResponse.kw_title :=
         or_str (TicketUpdate.title update) "Original Title";
       TicketResponse.kw_description :=
         or_str (TicketUpdate.description update) "Original Description";
       TicketResponse.kw_status := or_enum (TicketUpdate.status update) OPEN;
       TicketResponse.kw_priority :=
         or_enum (TicketUpdate.priority update) MEDIUM;
       TicketResponse.kw_type := TASK;
       TicketResponse.kw_created_by := "original_user";
       TicketResponse.kw_assigned_to := Some (TicketUpdate.assigned_to update);
       TicketResponse.kw_project_id := "project123";
       TicketResponse.kw_created_at := Datetime.sub n (days 1);
       TicketResponse.kw_updated_at := updated;
       TicketResponse.kw_due_date := None;
       TicketResponse.kw_tags := or_list (TicketUpdate.tags update);
       TicketResponse.kw_environment := Some (Some "maya_2024");
       TicketResponse.kw_time_estimate := None;
       TicketResponse.kw_time_spent := None |}).

(** [add_ticket_comment], line 1676. *)
Definition add_ticket_comment (ticket_id : string) (comment : TicketComment.t)
  (current_user : string) : M json :=
  h <- now ;;
  ret (JDict [("message", JStr "Comment added successfully");
              ("ticket_id", JStr ticket_id);
              ("comment_id", JStr ("comment_" ++ str_int (py_hash h)))]).

(** [get_ticket_history], line 1689. *)
Definition get_ticket_history (ticket_id : string) : M json :=
  n1 <- now ;;
  n2 <- now ;;
  n3 <- now ;;
  ret (JDict
    [("ticket_id", JStr ticket_id);
     ("history", JList
        [JDict [("timestamp", JDatetime (Datetime.sub n1 (days 1)));
                ("type", JStr "created");
                ("user", JStr "user123");
                ("details", JStr "Ticket created")];
         JDict [("timestamp", JDatetime (Datetime.sub n2 (hours 12)));
                ("type", JStr "status_changed");
                ("user", JStr "user456");
                ("details",
                 JStr "Status changed from 'open' to 'in_progress'")];
         JDict [("timestamp", JDatetime (Datetime.sub n3 (hours 2)));
                ("type", JStr "comment_added");
                ("user", JStr "user789");
                ("details", JStr "Added comment: 'Working on this now'")]])]).

(** [assign_ticket], line 1716. *)
Definition assign_ticket (ticket_id assignee current_user : string) : M json :=
  ret (JDict [("message", JStr "Ticket assigned successfully");
              ("ticket_id", JStr ticket_id);
              ("assignee", JStr assignee)]).

(** [get_ticket_statistics], line 1729.  The three filters are accepted
    and not used. *)
Definition get_ticket_statistics
  (project_id : option string) (start_date end_date : option datetime)
  : M json :=
  ret (JDict
    [("total_tickets", JInt 150);
     ("status_breakdown",
      JDict [("open", JInt 45); ("in_progress", JInt 38);
             ("resolved", JInt 52); ("closed", JInt 15)]);
     ("priority_breakdown",
      JDict [("low", JInt 30); ("medium", JInt 75);
             ("high", JInt 35); ("critical", JInt 10)]);
     ("average_resolution_time", JStr "3.5 days");
     ("most_active_users",
      JList [JDict [("user", JStr "user123"); ("tickets_resolved", JInt 25)];
             JDict [("user", JStr "user456"); ("tickets_resolved", JInt 18)]])]).

(** [get_tickets], line 1777: the second handler registered for
    [GET /api/tickets].  Its body raises nothing, so the [except] arm is
    never entered; the two [str(datetime.now())] are kept as the
    readings they render. *)
Definition get_tickets : M json :=
  logger_debug "Fetching tickets" ;;;
  created <- now ;;
  updated <- now ;;
  let tickets :=
    JList [JDict [("id", JStr "TICKET-001");
                  ("title", JStr "Test Ticket");
                  ("description", JStr "This is a test ticket");
                  ("status", JStr "open");
                  ("priority", JStr "medium");
                  ("type", JStr "task");
                  ("created_by", JStr "user123");
                  ("created_at", JDatetime created);
                  ("updated_at", JDatetime updated);
                  ("project_id", JStr "project123")]] in
  logger_debug "Retrieved tickets" ;;;
  ret tickets.

(** [create_ticket], line 1806: the second handler registered for
    [POST /api/tickets]; the module-level name [create_ticket] ends up
    bound to it.  Its body raises nothing, so the [except] arm is never
    entered. *)
Definition create_ticket_1806 (ticket : TicketCreate.t) : M json :=
  h <- now ;;
  created <- now ;;
  updated <- now ;;
  ret (JDict
    [("id", JStr ("TICKET-" ++ str_int (py_hash h)));
     ("title", JStr (TicketCreate.title ticket));
     ("description", JStr (TicketCreate.description ticket));
     ("status", JStr "open");
     ("priority", JStr (TicketPriority_value (TicketCreate.priority ticket)));
     ("type", JStr (TicketType_value (TicketCreate.type_ ticket)));
     ("created_by", JStr "user123");
     ("created_at", JDatetime created);
     ("updated_at", JDatetime updated);
     ("project_id", JStr (TicketCreate.project_id ticket))]).

End Tickets.

(** ** The OAuth handlers *)

(** [urllib.parse.quote(s)] with its default [safe='/']: letters, digits
    and [_.-~/] are kept, every other byte becomes [%XX]. *)
Definition always_safe (c : ascii) : bool :=
  let n := nat_of_ascii c in
  ((65 <=? n) && (n <=? 90))%nat || ((97 <=? n) && (n <=? 122))%nat
  || ((48 <=? n) && (n <=? 57))%nat
  || Ascii.eqb c "_" || Ascii.eqb c "." || Ascii.eqb c "-" || Ascii.eqb c "~".

Definition hex_digit (n : nat) : ascii :=
  match get n "0123456789ABCDEF" with
  | Some c => c
  | None => "0"%char
  end.

Definition percent (c : ascii) : string :=
  let n := nat_of_ascii c in
  String "%" (String (hex_digit (n / 16)) (String (hex_digit (n mod 16)) "")).

Fixpoint quote (s : string) : string :=
  match s with
  | EmptyString => ""
  | String c rest =>
      (if always_safe c || Ascii.eqb c "/" then String c "" else percent c)
      ++ quote rest
  end.

(** The names bound in the module's namespace once it is loaded: what the
    [import] statements bind, the module-level assignments, and the
    functions and classes defined.  [from urllib.parse import quote,
    urlencode] binds [quote] and [urlencode], and nothing else. *)
Definition main_globals : list string :=
  [ "FastAPI"; "HTTPException"; "CORSMiddleware"; "RedirectResponse";
    "HTMLResponse"; "StaticFiles"; "BaseModel"; "Field"; "datetime";
    "timedelta"; "os"; "aiohttp"; "load_dotenv"; "quote"; "urlencode";
    "List"; "Optional"; "Dict"; "Enum"; "Response"; "logging"; "status";
    "glob"; "markdown"; "Path"; "discord"; "ui"; "commands"; "asyncio";
    "logger"; "DISCORD_CLIENT_ID"; "DISCORD_CLIENT_SECRET";
    "DISCORD_REDIRECT_URI"; "DISCORD_BOT_TOKEN"; "app"; "BASE_DIR";
    "add_cache_control_headers"; "root"; "discord_login"; "discord_callback";
    "debug_oauth"; "get_bot_invite"; "RenderJob"; "ProjectMilestone"; "Asset";
    "Review"; "TimeLog"; "get_assets"; "create_review";
    "get_productivity_stats"; "get_pipeline_dependencies";
    "trigger_automated_task"; "get_render_queue"; "submit_render_job";
    "get_project_milestones"; "get_system_health";
    "send_discord_notification"; "IssueComment"; "Issue"; "create_issue";
    "get_issues"; "TicketStatus"; "TicketPriority"; "TicketType";
    "TicketCreate"; "TicketResponse"; "create_ticket"; "get_ticket";
    "list_tickets"; "TicketComment"; "TicketUpdate"; "update_ticket";
    "add_ticket_comment"; "get_ticket_history"; "assign_ticket";
    "get_ticket_statistics"; "TicketBase"; "get_tickets"; "debug_tickets";
    "test_endpoint"; "get_old_tickets"; "GUILD_ID"; "bot"; "intents";
    "on_ready"; "help_ticket"; "ping"; "open_app"; "show_dashboard";
    "startup_event"; "get_bot_status" ].

(** Evaluating a global name. *)
Definition load_global (globals : list string) (name : string) : M unit :=
  if existsb (String.eqb name) globals then ret tt
  else raise (PyError "NameError" ("name '" ++ name ++ "' is not defined")).

(** [discord_login], line 1154, run in a module namespace [globals].  The
    two calls are written [urllib.parse.quote(...)]: each first evaluates
    the name [urllib]. *)
Definition discord_login (globals : list string) : M http_response :=
  load_global globals "urllib" ;;;
  let redirect_uri := quote "http://127.0.0.1:8000/auth/callback" in
  load_global globals "urllib" ;;;
  let scope :=
    quote ("bot " ++ "applications.commands " ++ "identify " ++ "guilds "
           ++ "guilds.members.read") in
  let oauth_url :=
    ("https://discord.com/api/oauth2/authorize"
     ++ "?client_id=1303089786495565875"
     ++ "&permissions=8"
     ++ "&response_type=code"
     ++ "&redirect_uri=" ++ redirect_uri
     ++ "&scope=") ++ scope in
  logger_info ("Redirecting to Discord OAuth URL: " ++ oauth_url) ;;;
  ret (RedirectResponse oauth_url).

(** [str(e)], given what it is for an [HTTPException] of a status and
    detail.  For a model validation error only the first line of the text
    is kept. *)
Definition py_str (str_HTTPException : Z -> string -> string) (e : exn)
  : string :=
  match e with
  | HTTPException s d => str_HTTPException s d
  | ValidationError model fields =>
      str_int (Z.of_nat (List.length fields)) ++ " validation errors for " ++ model
  | PyError _ message => message
  end.

(** What an upstream endpoint answers: [response.status], and what
    [await response.json()] gives or raises. *)
Record upstream_response : Type := mk_upstream {
  up_status : Z;
  up_text : string;
  up_json : res json
}.

Section OAuth.

(** [str(e)] for an [HTTPException] of the given status and detail. *)
Variable str_HTTPException : Z -> string -> string.

(** The configuration read from the environment. *)
Variable DISCORD_CLIENT_ID DISCORD_CLIENT_SECRET : option string.
Variable DISCORD_REDIRECT_URI : string.

(** [session.post('https://discord.com/api/oauth2/token', data=data)]
    and [session.get('https://discord.com/api/users/@me', headers=...)],
    the latter given the value put after [Bearer] in the
    [Authorization] header.  Either may raise (connection errors). *)
Variable token_endpoint : list (string * option string) -> res upstream_response.
Variable users_me : json -> res upstream_response.

(** The form [data] posted to the token endpoint. *)
Definition token_form (code : string) : list (string * option string) :=
  [("client_id", DISCORD_CLIENT_ID);
   ("client_secret", DISCORD_CLIENT_SECRET);
   ("grant_type", Some "authorization_code");
   ("code", Some code);
   ("redirect_uri", Some DISCORD_REDIRECT_URI);
   ("scope", Some "identify guilds bot applications.commands")].

(** The body of the [try] in [discord_callback], line 1177. *)
Definition discord_callback_try (code : string) : M json :=
  let data := token_form code in
  response <- lift (token_endpoint data) ;;
  token_data <-
    (if negb (up_status response =? 200)
     then raise (HTTPException 400 "Failed to get access token")
     else lift (up_json response)) ;;
  bearer <- lift (subscript token_data "access_token") ;;
  response <- lift (users_me bearer) ;;
  user_data <-
    (if negb (up_status response =? 200)
     then raise (HTTPException 400 "Failed to get user info")
     else lift (up_json response)) ;;
  access_token <- lift (subscript token_data "access_token") ;;
  ret (JDict [("user", user_data); ("access_token", access_token)]).

(** [discord_callback], line 1175. *)
Definition discord_callback (code : string) : M json :=
  try_except (discord_callback_try code)
    (fun e =>
       logger_error ("Error in Discord callback: "
                     ++ py_str str_HTTPException e) ;;;
       raise (HTTPException 400 (py_str str_HTTPException e))).

End OAuth.

(** ** Archived tickets: the endpoint *)

(** One [*.md] file of the tickets directory: its name without the
    extension, its path, what reading it gives or raises, and its
    modification time. *)
Record md_file : Type := mk_md_file {
  stem : string;
  file_path : string;
  read : res string;
  st_mtime : datetime
}.

Definition last_modified_of (ticket : json) : string :=
  match ticket with
  | JDict d =>
      match dict_get "last_modified" d with
      | Some (JStr s) => s
      | _ => ""
      end
  | _ => ""
  end.

(** [sorted(tickets, key=lambda x: x["last_modified"], reverse=True)]:
    descending, and stable (entries with equal keys keep their order). *)
Fixpoint insert_desc (x : json) (l : list json) : list json :=
  match l with
  | [] => [x]
  | y :: rest =>
      if String.ltb (last_modified_of y) (last_modified_of x)
      then x :: y :: rest
      else y :: insert_desc x rest
  end.

Definition sorted_desc (l : list json) : list json :=
  fold_left (fun acc x => insert_desc x acc) l [].

Section Archive.

Variable str_HTTPException : Z -> string -> string.

(** [markdown.markdown]. *)
Variable markdown : string -> string.

(** The loop over [tickets_dir.glob("*.md")]. *)
Fixpoint read_tickets (files : list md_file) (tickets : list json)
  : res (list json) :=
  match files with
  | [] => Ok tickets
  | md :: rest =>
      match read md with
      | Raised e => Raised e
      | Ok text =>
          read_tickets rest
            (tickets ++
             [JDict [("id", JStr (stem md));
                     ("content", JStr (markdown text));
                     ("file_path", JStr (file_path md));
                     ("last_modified", JStr (isoformat (st_mtime md)))]])
      end
  end.

(** [get_old_tickets], line 1847, on a directory listing that yields
    [files] or raises. *)
Definition get_old_tickets (files : res (list md_file)) : M json :=
  try_except
    (fs <- lift files ;;
     tickets <- lift (read_tickets fs []) ;;
     ret (JList (sorted_desc tickets)))
    (fun e =>
       logger_error ("Error reading ticket files: "
                     ++ py_str str_HTTPException e) ;;;
       raise (HTTPException 500
                ("Error reading ticket files: " ++ py_str str_HTTPException e))).

End Archive.

(** ** Archived tickets: the dashboard script

    [parseTicketContent] is JavaScript embedded in the page that [root]
    serves.  Its five patterns are built from literals, [^], [$], [\s*]
    and one group [(.+)], all under the [m] flag; they are run by a
    backtracking matcher for exactly these items.  [is_space] and
    [is_line_terminator] are the ASCII members of the classes that
    JavaScript uses for [\s], [trim], [.] and [$]: what is said of a
    text as white space or as one line is said of ASCII text. *)
Module Dashboard.

Inductive re_item : Type :=
| BOL                       (* ^ under /m *)
| EOL                       (* $ under /m *)
| Chr (c : ascii)
| WsStar                    (* \s*, greedy *)
| DotPlus.                  (* (.+), greedy, the only group *)

Fixpoint lit (s : string) : list re_item :=
  match s with
  | EmptyString => []
  | String c rest => Chr c :: lit rest
  end.

Definition is_line_terminator (c : ascii) : bool :=
  let n := nat_of_ascii c in ((n =? 10) || (n =? 13))%nat.

Definition is_space (c : ascii) : bool :=
  let n := nat_of_ascii c in (((9 <=? n) && (n <=? 13)) || (n =? 32))%nat.

(** Length of the longest prefix whose characters satisfy [p]. *)
Fixpoint span (p : ascii -> bool) (s : string) : nat :=
  match s with
  | EmptyString => O
  | String c rest => if p c then S (span p rest) else O
  end.

Fixpoint take (k : nat) (s : string) : string :=
  match k, s with
  | S k', String c rest => String c (take k' rest)
  | _, _ => ""
  end.

Fixpoint drop (k : nat) (s : string) : string :=
  match k, s with
  | S k', String _ rest => drop k' rest
  | _, _ => s
  end.

(** The character before the position reached after reading [s], when
    [prev] was the one before [s]. *)
Fixpoint last_char (prev : option ascii) (s : string) : option ascii :=
  match s with
  | EmptyString => prev
  | String c rest => last_char (Some c) rest
  end.

(** Greedy choice: try [lo + n], then [lo + n - 1], down to [lo]. *)
Fixpoint try_down {A} (lo n : nat) (f : nat -> option A) : option A :=
  match f (lo + n)%nat with
  | Some r => Some r
  | None =>
      match n with
      | O => None
      | S n' => try_down lo n' f
      end
  end.

Definition at_bol (prev : option ascii) : bool :=
  match prev with
  | None => true
  | Some c => is_line_terminator c
  end.

Definition at_eol (s : string) : bool :=
  match s with
  | EmptyString => true
  | String c _ => is_line_terminator c
  end.

(** Match [r] at the current position; [prev] is the character before
    it, [s] the input from it on.  The result is the text of the group. *)
Fixpoint match_here (r : list re_item) (prev : option ascii) (s : string)
  (group : option string) : option (option string) :=
  match r with
  | [] => Some group
  | BOL :: r' => if at_bol prev then match_here r' prev s group else None
  | EOL :: r' => if at_eol s then match_here r' prev s group else None
  | Chr c :: r' =>
      match s with
      | String c' rest =>
          if Ascii.eqb c c' then match_here r' (Some c') rest group else None
      | EmptyString => None
      end
  | WsStar :: r' =>
      try_down 0 (span is_space s)
        (fun k => match_here r' (last_char prev (take k s)) (drop k s) group)
  | DotPlus :: r' =>
      match span (fun c => negb (is_line_terminator c)) s with
      | O => None
      | S n =>
          try_down 1 n
            (fun k => match_here r' (last_char prev (take k s)) (drop k s)
                        (Some (take k s)))
      end
  end.

(** [content.match(r)] without the [g] flag: the leftmost match. *)
Fixpoint search (r : list re_item) (prev : option ascii) (s : string)
  : option (option string) :=
  match match_here r prev s None with
  | Some g => Some g
  | None =>
      match s with
      | EmptyString => None
      | String c rest => search r (Some c) rest
      end
  end.

(** [m ? m[1] : null] for [m = content.match(r)]. *)
Definition group1 (r : list re_item) (content : string) : option string :=
  match search r None content with
  | Some g => g
  | None => None
  end.

(** [s.split(',')] *)
Fixpoint split_comma (s : string) : list string :=
  match s with
  | EmptyString => [""]
  | String c rest =>
      if Ascii.eqb c ","
      then "" :: split_comma rest
      else match split_comma rest with
           | h :: t => String c h :: t
           | [] => [String c ""]
           end
  end.

Fixpoint trim_end (s : string) : string :=
  match s with
  | EmptyString => ""
  | String c rest =>
      match trim_end rest with
      | EmptyString => if is_space c then "" else String c ""
      | r => String c r
      end
  end.

(** [s.trim()] *)
Definition trim (s : string) : string := trim_end (drop (span is_space s) s).

Record TicketInfo : Type := mk_info {
  title : option string;
  author : option string;
  created : option string;
  status : option string;
  tags : list string
}.

(** [/^#\s*(.+)$/m] *)
Definition title_re : list re_item := [BOL; Chr "#"; WsStar; DotPlus; EOL].

(** [/<label>\s*(.+)$/m] for the labels [Created by:], [Created on:],
    [Status:] and [Tags:]. *)
Definition label_re (label : string) : list re_item :=
  (lit label ++ [WsStar; DotPlus; EOL])%list.

(** [parseTicketContent], line 1126. *)
Definition parseTicketContent (content : string) : TicketInfo :=
  let titleMatch := group1 title_re content in
  let authorMatch := group1 (label_re "Created by:") content in
  let dateMatch := group1 (label_re "Created on:") content in
  let statusMatch := group1 (label_re "Status:") content in
  let tagsMatch := group1 (label_re "Tags:") content in
  {| title := titleMatch;
     author := authorMatch;
     created := dateMatch;
     status := statusMatch;
     tags := match tagsMatch with
             | Some t => map trim (split_comma t)
             | None => []
             end |}.

(** What [loadOldTickets] extracts from the endpoint's answer:
    [parseTicketContent(ticket.content)] for each entry. *)
Definition content_of (ticket : json) : string :=
  match ticket with
  | JDict d =>
      match dict_get "content" d with
      | Some (JStr s) => s
      | _ => ""
      end
  | _ => ""
  end.

Definition ticket_infos (answer : json) : list TicketInfo :=
  match answer with
  | JList tickets => map (fun t => parseTicketContent (content_of t)) tickets
  | _ => []
  end.

(** No line of [s] starts with [#]; [prev] is the character before [s]. *)
Fixpoint no_hash_line (prev : option ascii) (s : string) : bool :=
  match s with
  | EmptyString => true
  | String c rest =>
      negb (at_bol prev && Ascii.eqb "#" c) && no_hash_line (Some c) rest
  end.

End Dashboard.

(** ** Routing

    A request path is given by its segments: [/api/tickets/T1] is
    [["api"; "tickets"; "T1"]].  A route's path is compiled to a pattern
    in which [{name}] stands for one non-empty segment.  Every decorator
    [@app.get], [@app.post], [@app.put] appends its route to the table;
    the router walks the table in that order and the first route that
    matches path and method serves the request.  The two middlewares
    (CORS, cache headers) do not choose the handler and are left out, as
    are the redirects that add or remove a trailing slash. *)

Inductive http_method : Type := GET | POST | PUT | DELETE.

Definition http_method_eqb (a b : http_method) : bool :=
  match a, b with
  | GET, GET | POST, POST | PUT, PUT | DELETE, DELETE => true
  | _, _ => false
  end.

Inductive segment : Type :=
| Lit (s : string)
| Param (name : string).

Inductive endpoint : Type :=
| EP_openapi | EP_swagger_ui | EP_swagger_redirect | EP_redoc
| EP_static
| EP_root | EP_discord_login | EP_discord_callback | EP_debug_oauth
| EP_get_bot_invite | EP_get_assets | EP_create_review
| EP_get_productivity_stats | EP_get_pipeline_dependencies
| EP_trigger_automated_task | EP_get_render_queue | EP_submit_render_job
| EP_get_project_milestones | EP_get_system_health
| EP_send_discord_notification | EP_create_issue | EP_get_issues
| EP_create_ticket                       (* line 1558 *)
| EP_get_ticket
| EP_list_tickets                        (* line 1604 *)
| EP_update_ticket | EP_add_ticket_comment | EP_get_ticket_history
| EP_assign_ticket | EP_get_ticket_statistics
| EP_get_tickets                         (* line 1776 *)
| EP_create_ticket_1806                  (* line 1805 *)
| EP_debug_tickets | EP_test_endpoint | EP_get_old_tickets
| EP_get_bot_status.

Inductive route : Type :=
| Mount (prefix : list string) (e : endpoint)
| Route (m : http_method) (pattern : list segment) (e : endpoint).

Definition api (rest : list segment) : list segment := Lit "api" :: rest.

(** The route table, in the order in which the module registers it.  The
    first four routes are those that [FastAPI(...)] adds for its own
    documentation when [app] is created. *)
Definition routes : list route :=
  [ Route GET [Lit "openapi.json"] EP_openapi;
    Route GET [Lit "docs"] EP_swagger_ui;
    Route GET [Lit "docs"; Lit "oauth2-redirect"] EP_swagger_redirect;
    Route GET [Lit "redoc"] EP_redoc;
    Mount ["static"] EP_static;
    Route GET [] EP_root;
    Route GET [Lit "auth"; Lit "login"] EP_discord_login;
    Route GET [Lit "auth"; Lit "callback"] EP_discord_callback;
    Route GET [Lit "debug"; Lit "oauth"] EP_debug_oauth;
    Route GET [Lit "auth"; Lit "bot-invite"] EP_get_bot_invite;
    Route GET (api [Lit "assets"]) EP_get_assets;
    Route POST (api [Lit "assets"; Param "asset_id"; Lit "review"])
      EP_create_review;
    Route GET (api [Lit "statistics"; Lit "productivity"])
      EP_get_productivity_stats;
    Route GET (api [Lit "pipeline"; Lit "dependencies"])
      EP_get_pipeline_dependencies;
    Route POST (api [Lit "pipeline"; Lit "automated-tasks"])
      EP_trigger_automated_task;
    Route GET (api [Lit "render-queue"]) EP_get_render_queue;
    Route POST (api [Lit "render-jobs"]) EP_submit_render_job;
    Route GET (api [Lit "projects"; Param "project_id"; Lit "milestones"])
      EP_get_project_milestones;
    Route GET (api [Lit "system"; Lit "health"]) EP_get_system_health;
    Route POST (api [Lit "notifications"; Lit "discord"])
      EP_send_discord_notification;
    Route POST (api [Lit "issues"]) EP_create_issue;
    Route GET (api [Lit "issues"]) EP_get_issues;
    Route POST (api [Lit "tickets"]) EP_create_ticket;
    Route GET (api [Lit "tickets"; Param "ticket_id"]) EP_get_ticket;
    Route GET (api [Lit "tickets"]) EP_list_tickets;
    Route PUT (api [Lit "tickets"; Param "ticket_id"]) EP_update_ticket;
    Route POST (api [Lit "tickets"; Param "ticket_id"; Lit "comments"])
      EP_add_ticket_comment;
    Route GET (api [Lit "tickets"; Param "ticket_id"; Lit "history"])
      EP_get_ticket_history;
    Route POST (api [Lit "tickets"; Param "ticket_id"; Lit "assign"])
      EP_assign_ticket;
    Route GET (api [Lit "tickets"; Lit "statistics"]) EP_get_ticket_statistics;
    Route GET (api [Lit "tickets"]) EP_get_tickets;
    Route POST (api [Lit "tickets"]) EP_create_ticket_1806;
    Route GET (api [Lit "debug"; Lit "tickets"]) EP_debug_tickets;
    Route GET (api [Lit "test"]) EP_test_endpoint;
    Route GET (api [Lit "old-tickets"]) EP_get_old_tickets;
    Route GET (api [Lit "bot"; Lit "status"]) EP_get_bot_status ].

Definition path_params : Type := list (string * string).

(** A path against a pattern: the path parameters when it matches. *)
Fixpoint match_path (pattern : list segment) (path : list string)
  : option path_params :=
  match pattern, path with
  | [], [] => Some []
  | Lit s :: pattern', x :: path' =>
      if String.eqb s x then match_path pattern' path' else None
  | Param name :: pattern', x :: path' =>
      if String.eqb x "" then None
      else option_map (cons (name, x)) (match_path pattern' path')
  | _, _ => None
  end.

(** A mounted application takes every path that goes below its prefix
    ([/static/...], not [/static] itself), whatever the method. *)
Fixpoint has_prefix (prefix path : list string) : bool :=
  match prefix, path with
  | [], _ :: _ => true
  | p :: prefix', x :: path' => String.eqb p x && has_prefix prefix' path'
  | _, [] => false
  end.

Inductive route_match : Type :=
| NoMatch
| Partial                                (* the path matches, the method not *)
| Full (e : endpoint) (params : path_params).

Definition matches (r : route) (m : http_method) (path : list string)
  : route_match :=
  match r with
  | Mount prefix e => if has_prefix prefix path then Full e [] else NoMatch
  | Route m' pattern e =>
      match match_path pattern path with
      | None => NoMatch
      | Some params => if http_method_eqb m m' then Full e params else Partial
      end
  end.

Inductive dispatched : Type :=
| NotFound
| MethodNotAllowed
| SlashRedirect (path : list string)
| Dispatched (e : endpoint) (params : path_params).

(** The router: the first full match serves; without one, a partial
    match answers 405.  With no match at all the router looks at the
    path with its trailing slash added or removed, redirects there when
    some route would match it, and answers 404 otherwise. *)
Fixpoint dispatch_in (table : list route) (m : http_method)
  (path : list string) (partial : bool) : dispatched :=
  match table with
  | [] => if partial then MethodNotAllowed else NotFound
  | r :: rest =>
      match matches r m path with
      | Full e params => Dispatched e params
      | Partial => dispatch_in rest m path true
      | NoMatch => dispatch_in rest m path partial
      end
  end.

Fixpoint drop_empty (segments : list string) : list string :=
  match segments with
  | EmptyString :: rest => drop_empty rest
  | _ => segments
  end.

(** The other spelling of a path: without its trailing slashes when it
    has some, with one added when it has none.  [/a/b/] is
    [["a"; "b"; ""]] and the path [/] is [[]]; [None] stands for the
    empty string that is left when a path is made of slashes only. *)
Definition toggle_slash (path : list string) : option (list string) :=
  match rev path with
  | EmptyString :: r =>
      match drop_empty r with
      | [] => None
      | r' => Some (rev r')
      end
  | _ => Some (path ++ [""])%list
  end.

Definition matches_some (table : list route) (m : http_method)
  (path : list string) : bool :=
  existsb (fun r => match matches r m path with
                    | NoMatch => false
                    | _ => true
                    end) table.

Definition dispatch (m : http_method) (path : list string) : dispatched :=
  match dispatch_in routes m path false with
  | NotFound =>
      match path with
      | [] => NotFound
      | _ :: _ =>
          match toggle_slash path with
          | Some path' =>
              if matches_some routes m path' then SlashRedirect path'
              else NotFound
          | None => NotFound
          end
      end
  | d => d
  end.

(** The path as it is written in a URL. *)
Fixpoint path_str (path : list string) : string :=
  match path with
  | [] => "/"
  | [x] => "/" ++ x
  | x :: rest => "/" ++ x ++ path_str rest
  end.

(** ** Serving a request *)

(** What the module takes from its environment. *)
Record Env : Type := mk_env {
  py_hash : datetime -> Z;
  optional_required : bool;
  str_HTTPException : Z -> string -> string;
  DISCORD_CLIENT_ID : option string;
  DISCORD_CLIENT_SECRET : option string;
  DISCORD_REDIRECT_URI : string;
  token_endpoint : list (string * option string) -> res upstream_response;
  users_me : json -> res upstream_response;
  markdown : string -> string;
  tickets_dir : res (list md_file);
  (** a query value read as a [datetime], when it is one *)
  parse_datetime : string -> option datetime;
  (** whether the framework can send a value that a handler returned:
      it passes the value through [jsonable_encoder] and
      [json.dumps(..., allow_nan=False)] and encodes the text as UTF-8,
      which fails for a float that is not finite, for a string with a
      lone surrogate and for a value nested too deep *)
  encodes : json -> bool
}.

(** A request body, already decoded against the model that the handler
    declares.  A comment may leave [created_at] out. *)
Inductive payload : Type :=
| NoBody
| CreateBody (ticket : TicketCreate.t)
| UpdateBody (update : TicketUpdate.t)
| CommentBody (content author : string) (created_at : option datetime)
    (attachments : list string).

Record request : Type := mk_request {
  req_method : http_method;
  req_path : list string;
  req_query : list (string * string);
  req_body : payload
}.

Inductive served : Type :=
| Answer (r : http_response)
  (** the handler returned [v]; fitting [v] to the route's response model
      is not modelled *)
| Returned (e : endpoint) (v : json)
  (** routed to an endpoint whose handler is not modelled *)
| Unmodelled (e : endpoint).

Definition TicketStatus_of (s : string) : option TicketStatus :=
  if String.eqb s "open" then Some OPEN
  else if String.eqb s "in_progress" then Some IN_PROGRESS
  else if String.eqb s "resolved" then Some RESOLVED
  else if String.eqb s "closed" then Some CLOSED
  else None.

Definition TicketPriority_of (s : string) : option TicketPriority :=
  if String.eqb s "low" then Some LOW
  else if String.eqb s "medium" then Some MEDIUM
  else if String.eqb s "high" then Some HIGH
  else if String.eqb s "critical" then Some CRITICAL
  else None.

(** A scalar parameter of the query string.  The pairs are kept in the
    order of the URL; a name that occurs more than once is read through
    the mapping made from the pairs, in which a later pair replaces an
    earlier one, so the last value counts. *)
Fixpoint query_get (name : string) (query : list (string * string))
  : option string :=
  match query with
  | [] => None
  | (k, v) :: rest =>
      match query_get name rest with
      | Some later => Some later
      | None => if String.eqb name k then Some v else None
      end
  end.

(** An optional query parameter read through [parse]: absent, well
    formed, or malformed. *)
Definition optional_query {A} (parse : string -> option A)
  (query : list (string * string)) (name : string) : option (option A) :=
  match query_get name query with
  | None => Some None
  | Some v =>
      match parse v with
      | Some a => Some (Some a)
      | None => None
      end
  end.

Definition path_param (params : path_params) (name : string) : string :=
  match dict_get name params with
  | Some v => v
  | None => ""
  end.

(** The framework around a handler: a returned value is sent as [wrap]
    makes it, an [HTTPException] with its own status and detail, and any
    other exception with 500. *)
Definition respond {A} (wrap : A -> http_response) (handler : M A) : M served :=
  fun w =>
    match handler w with
    | (Ok a, w') => (Ok (Answer (wrap a)), w')
    | (Raised (HTTPException s d), w') =>
        (Ok (Answer {| status_code := s; body := Detail d |}), w')
    | (Raised _, w') =>
        (Ok (Answer {| status_code := 500;
                       body := PlainText "Internal Server Error" |}), w')
    end.

Definition ok {A} (wrap : A -> content) (a : A) : http_response :=
  {| status_code := 200; body := wrap a |}.

Definition internal_server_error : http_response :=
  {| status_code := 500; body := PlainText "Internal Server Error" |}.

(** A returned value is encoded as JSON after the handler has returned,
    outside its [try]: a value that the encoder refuses raises there and
    is answered with 500.  This step is written out for the handler that
    hands on values it received from elsewhere; the values that the
    other handlers build themselves, from strings, integers, finite
    floats and datetimes, are sent as they are. *)
Definition encoded (encodes : json -> bool) (v : json) : http_response :=
  if encodes v then ok Json v else internal_server_error.

(** What [allow_nan=False] asks of a value: every float in it is
    finite. *)
Fixpoint all_finite (v : json) : bool :=
  match v with
  | JNonFinite _ => false
  | JList l => forallb all_finite l
  | JDict d => forallb (fun kv => all_finite (snd kv)) d
  | _ => true
  end.

Definition unprocessable : M served :=
  ret (Answer {| status_code := 422; body := RequestErrors |}).

Definition returned (e : endpoint) (handler : M json) : M served :=
  v <- handler ;; ret (Returned e v).

Section Server.

Variable env : Env.

Definition serve (req : request) : M served :=
  let query := req_query req in
  match dispatch (req_method req) (req_path req) with
  | NotFound =>
      ret (Answer {| status_code := 404; body := Detail "Not Found" |})
  | MethodNotAllowed =>
      ret (Answer {| status_code := 405; body := Detail "Method Not Allowed" |})
  | SlashRedirect path => ret (Answer (RedirectResponse (path_str path)))
  | Dispatched e params =>
      let ticket_id := path_param params "ticket_id" in
      let current_user :=
        match query_get "current_user" query with
        | Some u => u
        | None => "user123"
        end in
      match e with
      | EP_discord_login => respond (fun r => r) (discord_login main_globals)
      | EP_discord_callback =>
          match query_get "code" query with
          | Some code =>
              respond (encoded (encodes env))
                (discord_callback (str_HTTPException env)
                   (DISCORD_CLIENT_ID env) (DISCORD_CLIENT_SECRET env)
                   (DISCORD_REDIRECT_URI env) (token_endpoint env)
                   (users_me env) code)
          | None => unprocessable
          end
      | EP_create_ticket =>
          match req_body req with
          | CreateBody ticket =>
              respond (ok Ticket)
                (create_ticket (py_hash env) (optional_required env)
                   ticket current_user)
          | _ => unprocessable
          end
      | EP_get_ticket =>
          respond (ok Ticket) (get_ticket (optional_required env) ticket_id)
      | EP_list_tickets =>
          match optional_query TicketStatus_of query "status",
                optional_query TicketPriority_of query "priority" with
          | Some status, Some priority =>
              respond (ok Tickets)
                (list_tickets (optional_required env) status priority
                   (query_get "assigned_to" query) (query_get "project_id" query))
          | _, _ => unprocessable
          end
      | EP_update_ticket =>
          match req_body req with
          | UpdateBody update =>
              respond (ok Ticket)
                (update_ticket (optional_required env) ticket_id update
                   current_user)
          | _ => unprocessable
          end
      | EP_add_ticket_comment =>
          match req_body req with
          | CommentBody c a created_at attachments =>
              respond (ok Json)
                (created <- match created_at with
                            | Some d => ret d
                            | None => now
                            end ;;
                 add_ticket_comment (py_hash env) ticket_id
                   (TicketComment.mk c a created attachments) current_user)
          | _ => unprocessable
          end
      | EP_get_ticket_history =>
          respond (ok Json) (get_ticket_history ticket_id)
      | EP_assign_ticket =>
          match query_get "assignee" query with
          | Some assignee =>
              respond (ok Json) (assign_ticket ticket_id assignee current_user)
          | None => unprocessable
          end
      | EP_get_ticket_statistics =>
          match optional_query (parse_datetime env) query "start_date",
                optional_query (parse_datetime env) query "end_date" with
          | Some start_date, Some end_date =>
              respond (ok Json)
                (get_ticket_statistics (query_get "project_id" query)
                   start_date end_date)
          | _, _ => unprocessable
          end
      | EP_get_tickets => returned e get_tickets
      | EP_create_ticket_1806 =>
          match req_body req with
          | CreateBody ticket =>
              returned e (create_ticket_1806 (py_hash env) ticket)
          | _ => unprocessable
          end
      | EP_get_old_tickets =>
          respond (ok Json)
            (get_old_tickets (str_HTTPException env) (markdown env)
               (tickets_dir env))
      | _ => ret (Unmodelled e)
      end
  end.

End Server.

(** The status of an answer ([0] when the request left the model). *)
Definition status_of (s : res served) : Z :=
  match s with
  | Ok (Answer r) => status_code r
  | _ => 0
  end.

(** * Requests, expected answers and sample data *)

Definition post_ticket (x : TicketCreate.t) : request :=
  mk_request POST ["api"; "tickets"] [] (CreateBody x).

Definition get_ticket_req (ticket_id : string) : request :=
  mk_request GET ["api"; "tickets"; ticket_id] [] NoBody.

Definition put_ticket (ticket_id : string) (u : TicketUpdate.t) : request :=
  mk_request PUT ["api"; "tickets"; ticket_id] [] (UpdateBody u).

Definition post_comment (ticket_id : string) (c a : string)
  (created_at : option datetime) (attachments : list string) : request :=
  mk_request POST ["api"; "tickets"; ticket_id; "comments"] []
    (CommentBody c a created_at attachments).

Definition post_assign (ticket_id assignee : string) : request :=
  mk_request POST ["api"; "tickets"; ticket_id; "assign"]
    [("assignee", assignee)] NoBody.

Definition get_history (ticket_id : string) : request :=
  mk_request GET ["api"; "tickets"; ticket_id; "history"] [] NoBody.

Definition get_statistics (query : list (string * string)) : request :=
  mk_request GET ["api"; "tickets"; "statistics"] query NoBody.

Definition get_callback (code : string) : request :=
  mk_request GET ["auth"; "callback"] [("code", code)] NoBody.

(** A sample environment and sample data for the worked instances. *)
Definition sample_env (strict : bool) : Env :=
  {| py_hash := fun d => d;
     optional_required := strict;
     str_HTTPException := fun s d => str_int s ++ ": " ++ d;
     DISCORD_CLIENT_ID := Some "client";
     DISCORD_CLIENT_SECRET := Some "secret";
     DISCORD_REDIRECT_URI := "http://127.0.0.1:8000/auth/callback";
     token_endpoint := fun _ => Ok (mk_upstream 401 "invalid_grant" (Ok JNull));
     users_me := fun _ => Ok (mk_upstream 401 "unauthorized" (Ok JNull));
     markdown := fun s => s;
     tickets_dir := Ok [];
     parse_datetime := fun _ => None;
     encodes := all_finite |}.

(** A clock that starts on 2024-01-15 at 10:00 and advances by one
    second at every reading. *)
Definition sample_world : World :=
  {| clock := fun n => at_ordinal 738900 (36000000000 + Z.of_nat n * 1000000);
     ticks := 0;
     logs := [] |}.

Definition crash_on_export : TicketCreate.t :=
  {| TicketCreate.title := "Crash on export";
     TicketCreate.description := "Exporting the shot crashes";
     TicketCreate.status := OPEN;
     TicketCreate.priority := HIGH;
     TicketCreate.type_ := BUG;
     TicketCreate.assigned_to := None;
     TicketCreate.project_id := "proj1";
     TicketCreate.asset_id := None;
     TicketCreate.shot_id := None;
     TicketCreate.due_date := None;
     TicketCreate.tags := [];
     TicketCreate.environment := None;
     TicketCreate.reproducibility_steps := None;
     TicketCreate.time_estimate := None |}.

Definition render_farm_feature : TicketCreate.t :=
  {| TicketCreate.title := "Show farm load";
     TicketCreate.description := "Show the render farm load on the dashboard";
     TicketCreate.status := OPEN;
     TicketCreate.priority := LOW;
     TicketCreate.type_ := FEATURE;
     TicketCreate.assigned_to := Some "bob";
     TicketCreate.project_id := "proj2";
     TicketCreate.asset_id := None;
     TicketCreate.shot_id := None;
     TicketCreate.due_date := None;
     TicketCreate.tags := ["farm"];
     TicketCreate.environment := None;
     TicketCreate.reproducibility_steps := None;
     TicketCreate.time_estimate := Some (4 # 1)%Q |}.

(** The same clock eight hours and some requests later. *)
Definition later_world : World :=
  {| clock := fun n => at_ordinal 738900 (64800000000 + Z.of_nat n * 1000000);
     ticks := 57;
     logs := ["Error in Discord callback: 400: Failed to get access token"] |}.


(** The mock that [get_ticket] answers with, read at clock readings
    [created] and [updated]. *)
Definition sample_response (ticket_id : string) (created updated : datetime)
  : TicketResponse.t :=
  {| TicketResponse.id := ticket_id;
     TicketResponse.title := "Sample Ticket";
     TicketResponse.description := "This is a sample ticket";
     TicketResponse.status := OPEN;
     TicketResponse.priority := MEDIUM;
     TicketResponse.type_ := TASK;
     TicketResponse.created_by := "user123";
     TicketResponse.assigned_to := None;
     TicketResponse.project_id := "project123";
     TicketResponse.created_at := created;
     TicketResponse.updated_at := updated;
     TicketResponse.due_date := None;
     TicketResponse.tags := ["sample"];
     TicketResponse.environment := Some "maya_2024";
     TicketResponse.time_estimate := None;
     TicketResponse.time_spent := Some (0 # 1)%Q |}.

(** What [PUT /api/tickets/{id}] answers with: built from the request
    alone, at clock readings [n] and [updated]. *)
Definition update_response (ticket_id : string) (u : TicketUpdate.t)
  (n updated : datetime) : TicketResponse.t :=
  {| TicketResponse.id := ticket_id;
     TicketResponse.title := or_str (TicketUpdate.title u) "Original Title";
     TicketResponse.description :=
       or_str (TicketUpdate.description u) "Original Description";
     TicketResponse.status := or_enum (TicketUpdate.status u) OPEN;
     TicketResponse.priority := or_enum (TicketUpdate.priority u) MEDIUM;
     TicketResponse.type_ := TASK;
     TicketResponse.created_by := "original_user";
     TicketResponse.assigned_to := TicketUpdate.assigned_to u;
     TicketResponse.project_id := "project123";
     TicketResponse.created_at := Datetime.sub n (days 1);
     TicketResponse.updated_at := updated;
     TicketResponse.due_date := None;
     TicketResponse.tags := or_list (TicketUpdate.tags u);
     TicketResponse.environment := Some "maya_2024";
     TicketResponse.time_estimate := None;
     TicketResponse.time_spent := Some (0 # 1)%Q |}.

(** What a path parameter such as [{ticket_id}] stands for: one segment
    of the path, not empty and without [/]. *)
Fixpoint no_slash (s : string) : bool :=
  match s with
  | EmptyString => true
  | String c rest => negb (Ascii.eqb c "/") && no_slash rest
  end.

Definition one_segment (s : string) : bool :=
  negb (String.eqb s "") && no_slash s.

(** One entry of a ticket's history. *)
Definition history_event (timestamp : datetime) (type user details : string)
  : json :=
  JDict [("timestamp", JDatetime timestamp);
         ("type", JStr type);
         ("user", JStr user);
         ("details", JStr details)].


(** The attempt made by [GET /auth/callback?code=...] in [env]. *)
Definition callback_attempt (env : Env) (code : string) : M json :=
  discord_callback_try (DISCORD_CLIENT_ID env) (DISCORD_CLIENT_SECRET env)
    (DISCORD_REDIRECT_URI env) (token_endpoint env) (users_me env) code.

Definition callback_form (env : Env) (code : string)
  : list (string * option string) :=
  token_form (DISCORD_CLIENT_ID env) (DISCORD_CLIENT_SECRET env)
    (DISCORD_REDIRECT_URI env) code.

(** Computations that leave the world as they found it. *)
Definition keeps_world {A} (m : M A) : Prop := forall w, snd (m w) = w.

(** An upstream endpoint answered with a status other than 200: either
    the token endpoint, or, after a token was obtained, the profile
    endpoint.  [message] is the text the handler raises with. *)
Definition upstream_non_200 (env : Env) (code message : string) : Prop :=
  (exists r,
     token_endpoint env (callback_form env code) = Ok r
     /\ up_status r <> 200
     /\ message = "Failed to get access token")
  \/ (exists r token_data bearer r2,
        token_endpoint env (callback_form env code) = Ok r
        /\ up_status r = 200
        /\ up_json r = Ok token_data
        /\ subscript token_data "access_token" = Ok bearer
        /\ users_me env bearer = Ok r2
        /\ up_status r2 <> 200
        /\ message = "Failed to get user info").

(** An environment whose token endpoint rejects every code with status
    401 and the given body. *)
Definition rejecting_env (strf : Z -> string -> string) (upstream_body : string)
  : Env :=
  {| py_hash := fun d => d;
     optional_required := false;
     str_HTTPException := strf;
     DISCORD_CLIENT_ID := Some "client";
     DISCORD_CLIENT_SECRET := Some "secret";
     DISCORD_REDIRECT_URI := "http://127.0.0.1:8000/auth/callback";
     token_endpoint := fun _ => Ok (mk_upstream 401 upstream_body (Ok JNull));
     users_me := fun _ => Ok (mk_upstream 200 "" (Ok JNull));
     markdown := fun s => s;
     tickets_dir := Ok [];
     parse_datetime := fun _ => None;
     encodes := all_finite |}.

(** A token answer of status 200 that carries no [access_token]: the
    lookup raises [KeyError], answered with 400 like any other failure. *)
Definition tokenless_env : Env :=
  {| py_hash := fun d => d;
     optional_required := false;
     str_HTTPException := fun s d => str_int s ++ ": " ++ d;
     DISCORD_CLIENT_ID := Some "client";
     DISCORD_CLIENT_SECRET := Some "secret";
     DISCORD_REDIRECT_URI := "http://127.0.0.1:8000/auth/callback";
     token_endpoint :=
       fun _ => Ok (mk_upstream 200 "{}" (Ok (JDict [("error", JStr "none")])));
     users_me := fun _ => Ok (mk_upstream 200 "{}" (Ok (JDict [])));
     markdown := fun s => s;
     tickets_dir := Ok [];
     parse_datetime := fun _ => None;
     encodes := all_finite |}.

(** The ways in which the body of the [try] in [discord_callback] can
    raise [e], told from what the two upstream endpoints do: the token
    request fails; it is answered with a status other than 200; its
    body is not JSON; the JSON is a dict without [access_token], or no
    dict at all; the profile request fails; it is answered with a status
    other than 200; its body is not JSON. *)
Definition callback_fails (env : Env) (code : string) (e : exn) : Prop :=
  token_endpoint env (callback_form env code) = Raised e
  \/ exists r,
       token_endpoint env (callback_form env code) = Ok r
       /\ ((up_status r <> 200
            /\ e = HTTPException 400 "Failed to get access token")
           \/ (up_status r = 200 /\ up_json r = Raised e)
           \/ exists token_data,
                up_status r = 200
                /\ up_json r = Ok token_data
                /\ ((exists d,
                        token_data = JDict d
                        /\ dict_get "access_token" d = None
                        /\ e = PyError "KeyError" "'access_token'")
                    \/ ((forall d, token_data <> JDict d)
                        /\ subscript token_data "access_token" = Raised e)
                    \/ exists d token,
                         token_data = JDict d
                         /\ dict_get "access_token" d = Some token
                         /\ (users_me env token = Raised e
                             \/ exists r2,
                                  users_me env token = Ok r2
                                  /\ ((up_status r2 <> 200
                                       /\ e = HTTPException 400
                                                "Failed to get user info")
                                      \/ (up_status r2 = 200
                                          /\ up_json r2 = Raised e))))).

(** Both upstream endpoints answer 200 with JSON, and the profile holds
    a float that is not finite, as [json.loads] reads [1e999]. *)
Definition overflow_env : Env :=
  {| py_hash := fun d => d;
     optional_required := false;
     str_HTTPException := fun s d => str_int s ++ ": " ++ d;
     DISCORD_CLIENT_ID := Some "client";
     DISCORD_CLIENT_SECRET := Some "secret";
     DISCORD_REDIRECT_URI := "http://127.0.0.1:8000/auth/callback";
     token_endpoint :=
       fun _ => Ok (mk_upstream 200 "{}"
                      (Ok (JDict [("access_token", JStr "6qrZcUqja7812RVdnEKjpzOL4CvHBFG")])));
     users_me :=
       fun _ => Ok (mk_upstream 200 "{}"
                      (Ok (JDict [("id", JStr "80351110224678912");
                                  ("accent_color", JNonFinite Infinity)])));
     markdown := fun s => s;
     tickets_dir := Ok [];
     parse_datetime := fun _ => None;
     encodes := all_finite |}.

Definition route_endpoint (r : route) : endpoint :=
  match r with
  | Mount _ e => e
  | Route _ _ e => e
  end.

(** The URL that [discord_login] is written to redirect to. *)
Definition authorize_url : string :=
  "https://discord.com/api/oauth2/authorize?client_id=1303089786495565875&permissions=8&response_type=code&redirect_uri=http%3A//127.0.0.1%3A8000/auth/callback&scope=bot%20applications.commands%20identify%20guilds%20guilds.members.read".

(** The archived document of the scenario, and its rendering as HTML: a
    heading, and one paragraph holding the three remaining lines. *)
Definition lighting_doc : string :=
  unlines ["# Fix lighting bug"; "Created by: alice"; "Status: closed";
           "Tags: lighting, bug"].

Definition lighting_html : string :=
  unlines ["<h1>Fix lighting bug</h1>"; "<p>Created by: alice";
           "Status: closed"; "Tags: lighting, bug</p>"].

Definition get_old_tickets_req : request :=
  mk_request GET ["api"; "old-tickets"] [] NoBody.

Definition lighting_file : md_file :=
  {| stem := "fix-lighting-bug";
     file_path := "/Users/martintomek/vfx-discord-app/tickets/fix-lighting-bug.md";
     read := Ok lighting_doc;
     st_mtime := at_ordinal 738900 36000000000 |}.

Definition archive_env : Env :=
  {| py_hash := fun d => d;
     optional_required := false;
     str_HTTPException := fun s d => str_int s ++ ": " ++ d;
     DISCORD_CLIENT_ID := None;
     DISCORD_CLIENT_SECRET := None;
     DISCORD_REDIRECT_URI := "http://127.0.0.1:8000/auth/callback";
     token_endpoint := fun _ => Raised (PyError "ClientConnectorError" "");
     users_me := fun _ => Raised (PyError "ClientConnectorError" "");
     markdown := fun _ => lighting_html;
     tickets_dir := Ok [lighting_file];
     parse_datetime := fun _ => None;
     encodes := all_finite |}.

(** * Further handlers, and what the further properties speak of *)

From Stdlib Require Import Sorted Permutation.

(** [urllib.parse.quote_plus(s)] as [urlencode] calls it: letters, digits
    and [_.-~] are kept, a space becomes [+], and every other byte, the
    slash included, becomes [%XX]. *)
Fixpoint quote_plus (s : string) : string :=
  match s with
  | EmptyString => ""
  | String c rest =>
      (if always_safe c then String c ""
       else if Ascii.eqb c " " then "+"
       else percent c)
      ++ quote_plus rest
  end.

(** [urlencode(d)] for a dict whose keys and values are strings: the
    pairs [key=value] in insertion order, joined by [&]. *)
Fixpoint urlencode (d : list (string * string)) : string :=
  match d with
  | [] => ""
  | [(k, v)] => quote_plus k ++ "=" ++ quote_plus v
  | (k, v) :: rest => quote_plus k ++ "=" ++ quote_plus v ++ "&" ++ urlencode rest
  end.

(** [str(v)] for a configuration value that may be unset. *)
Definition str_optional (v : option string) : string :=
  match v with
  | Some s => s
  | None => "None"
  end.

(** [debug_oauth], line 1216.  A configuration value that is unset or
    empty is falsy. *)
Definition debug_oauth (client_id client_secret : option string)
  (redirect_uri : string) : json :=
  JDict
    [("client_id",
      match client_id with
      | Some (String c s) => JStr (py_prefix 5 (String c s) ++ "...")
      | _ => JNull
      end);
     ("client_secret",
      match client_secret with
      | Some (String _ _) => JStr "..."
      | _ => JNull
      end);
     ("redirect_uri", JStr redirect_uri);
     ("encoded_redirect", JStr (quote redirect_uri));
     ("full_auth_url",
      JStr ("https://discord.com/api/oauth2/authorize?"
            ++ urlencode [("client_id", str_optional client_id);
                          ("redirect_uri", redirect_uri);
                          ("response_type", "code");
                          ("scope", "identify guilds")]))].

(** [timedelta(minutes=n)] and [d + t]. *)
Definition minutes (n : Z) : timedelta := n * 60000000.
Definition datetime_add (d : datetime) (t : timedelta) : datetime := d + t.

(** [trigger_automated_task], line 1354. *)
Definition supported_tasks : list (string * string) :=
  [("generate_thumbnails", "Creates thumbnails for review");
   ("update_dependencies", "Updates all dependent files");
   ("validate_scene", "Checks scene file for common issues");
   ("backup_files", "Creates backup of specified files");
   ("sync_to_farm", "Syncs files to render farm")].

Definition trigger_automated_task (task_type target_id : string)
  (parameters : json) : M json :=
  match dict_get task_type supported_tasks with
  | None => raise (HTTPException 400 "Unsupported task type")
  | Some _ =>
      n <- now ;;
      ret (JDict [("task_id", JStr "task_123");
                  ("status", JStr "initiated");
                  ("estimated_completion",
                   JDatetime (datetime_add n (minutes 5)))])
  end.

(** Every character of [s] satisfies [p]. *)
Fixpoint all_chars (p : ascii -> bool) (s : string) : bool :=
  match s with
  | EmptyString => true
  | String c rest => p c && all_chars p rest
  end.

(** A file that can be read, and the text read from it. *)
Definition readable (md : md_file) : Prop := exists text, read md = Ok text.

Definition text_of (md : md_file) : string :=
  match read md with
  | Ok text => text
  | Raised _ => ""
  end.

(** The entry that [get_old_tickets] builds for a readable file. *)
Definition old_ticket_entry (render : string -> string) (md : md_file) : json :=
  JDict [("id", JStr (stem md));
         ("content", JStr (render (text_of md)));
         ("file_path", JStr (file_path md));
         ("last_modified", JStr (isoformat (st_mtime md)))].

(** [a] does not come before [b] in the order of their [last_modified]
    strings: [a] may stand in front of [b] in a descending list. *)
Definition not_older (a b : json) : Prop :=
  String.ltb (last_modified_of a) (last_modified_of b) = false.

(** The archive cannot be read: listing the directory raises [e], or the
    first file that cannot be read raises [e]. *)
Definition archive_failure (env : Env) (e : exn) : Prop :=
  tickets_dir env = Raised e
  \/ exists good bad rest,
       tickets_dir env = Ok (good ++ bad :: rest)%list
       /\ Forall readable good
       /\ read bad = Raised e.

Definition list_tickets_req (query : list (string * string)) : request :=
  mk_request GET ["api"; "tickets"] query NoBody.

(** Both enum filters of [list_tickets] are absent or name a member. *)
Definition filters_well_formed (query : list (string * string)) : Prop :=
  optional_query TicketStatus_of query "status" <> None
  /\ optional_query TicketPriority_of query "priority" <> None.

(** The caller named in the query string (by the last [current_user],
    where there are several), [user123] by default. *)
Definition caller_of (query : list (string * string)) : string :=
  match query_get "current_user" query with
  | Some u => u
  | None => "user123"
  end.


(** Both upstream calls of the callback succeed: the token endpoint
    answers 200 with JSON that holds [access_token], and the profile
    endpoint, asked with that token, answers 200 with JSON [user]. *)
Definition upstream_ok (env : Env) (code : string) (user token : json) : Prop :=
  exists r d r2,
    token_endpoint env (callback_form env code) = Ok r
    /\ up_status r = 200
    /\ up_json r = Ok (JDict d)
    /\ dict_get "access_token" d = Some token
    /\ users_me env token = Ok r2
    /\ up_status r2 = 200
    /\ up_json r2 = Ok user.

(** The three handlers that an earlier route hides. *)
Definition shadowed (e : endpoint) : bool :=
  match e with
  | EP_create_ticket_1806 | EP_get_tickets | EP_get_ticket_statistics => true
  | _ => false
  end.

(** One request for each handler: the method and path of its route, with
    [x] for a path parameter. *)
Definition request_for (e : endpoint) : http_method * list string :=
  match e with
  | EP_openapi => (GET, ["openapi.json"])
  | EP_swagger_ui => (GET, ["docs"])
  | EP_swagger_redirect => (GET, ["docs"; "oauth2-redirect"])
  | EP_redoc => (GET, ["redoc"])
  | EP_static => (GET, ["static"; "x"])
  | EP_root => (GET, [])
  | EP_discord_login => (GET, ["auth"; "login"])
  | EP_discord_callback => (GET, ["auth"; "callback"])
  | EP_debug_oauth => (GET, ["debug"; "oauth"])
  | EP_get_bot_invite => (GET, ["auth"; "bot-invite"])
  | EP_get_assets => (GET, ["api"; "assets"])
  | EP_create_review => (POST, ["api"; "assets"; "x"; "review"])
  | EP_get_productivity_stats => (GET, ["api"; "statistics"; "productivity"])
  | EP_get_pipeline_dependencies => (GET, ["api"; "pipeline"; "dependencies"])
  | EP_trigger_automated_task => (POST, ["api"; "pipeline"; "automated-tasks"])
  | EP_get_render_queue => (GET, ["api"; "render-queue"])
  | EP_submit_render_job => (POST, ["api"; "render-jobs"])
  | EP_get_project_milestones => (GET, ["api"; "projects"; "x"; "milestones"])
  | EP_get_system_health => (GET, ["api"; "system"; "health"])
  | EP_send_discord_notification => (POST, ["api"; "notifications"; "discord"])
  | EP_create_issue => (POST, ["api"; "issues"])
  | EP_get_issues => (GET, ["api"; "issues"])
  | EP_create_ticket => (POST, ["api"; "tickets"])
  | EP_get_ticket => (GET, ["api"; "tickets"; "x"])
  | EP_list_tickets => (GET, ["api"; "tickets"])
  | EP_update_ticket => (PUT, ["api"; "tickets"; "x"])
  | EP_add_ticket_comment => (POST, ["api"; "tickets"; "x"; "comments"])
  | EP_get_ticket_history => (GET, ["api"; "tickets"; "x"; "history"])
  | EP_assign_ticket => (POST, ["api"; "tickets"; "x"; "assign"])
  | EP_get_ticket_statistics => (GET, ["api"; "tickets"; "statistics"])
  | EP_get_tickets => (GET, ["api"; "tickets"])
  | EP_create_ticket_1806 => (POST, ["api"; "tickets"])
  | EP_debug_tickets => (GET, ["api"; "debug"; "tickets"])
  | EP_test_endpoint => (GET, ["api"; "test"])
  | EP_get_old_tickets => (GET, ["api"; "old-tickets"])
  | EP_get_bot_status => (GET, ["api"; "bot"; "status"])
  end.

(** Sample data for the worked instances of the further properties. *)
Definition render_file : md_file :=
  {| stem := "render-crash";
     file_path := "/Users/martintomek/vfx-discord-app/tickets/render-crash.md";
     read := Ok "# Render crash";
     st_mtime := at_ordinal 738901 0 |}.

Definition locked_file : md_file :=
  {| stem := "locked";
     file_path := "/Users/martintomek/vfx-discord-app/tickets/locked.md";
     read := Raised (PyError "PermissionError" "[Errno 13] Permission denied");
     st_mtime := at_ordinal 738902 0 |}.

Definition env_with_files (files : res (list md_file)) : Env :=
  {| py_hash := fun d => d;
     optional_required := false;
     str_HTTPException := fun s d => str_int s ++ ": " ++ d;
     DISCORD_CLIENT_ID := None;
     DISCORD_CLIENT_SECRET := None;
     DISCORD_REDIRECT_URI := "http://127.0.0.1:8000/auth/callback";
     token_endpoint := fun _ => Raised (PyError "ClientConnectorError" "");
     users_me := fun _ => Raised (PyError "ClientConnectorError" "");
     markdown := fun s => "<p>" ++ s ++ "</p>";
     tickets_dir := files;
     parse_datetime := fun _ => None;
     encodes := all_finite |}.


Definition is_ascii (c : ascii) : bool := (nat_of_ascii c <? 128)%nat.

(** A value that a field of an archived document can hold as it
    stands: not empty, starting with something other than white space,
    and on one line. *)
Definition is_value (v : string) : bool :=
  match v with
  | EmptyString => false
  | String c _ =>
      negb (Dashboard.is_space c)
      && all_chars (fun c => negb (Dashboard.is_line_terminator c)) v
  end.

(** The character [c] does not occur in [s]. *)
Definition lacks (c : ascii) (s : string) : bool :=
  all_chars (fun c' => negb (Ascii.eqb c c')) s.

(** What a group [(.+)] may have captured: nothing, or a non-empty text
    on one line. *)
Definition captured (g : option string) : Prop :=
  match g with
  | None => True
  | Some t =>
      t <> ""
      /\ all_chars (fun c => negb (Dashboard.is_line_terminator c)) t = true
  end.

(** * Properties *)

(** ** Ticket ids *)

(** The slice [[:16]] ends right after the date: the hash never makes it
    into the id. *)
Lemma ticket_id_drops_hash (d : datetime) (h : string) :
  py_prefix 16 ("TICKET-" ++ strftime_Ymd d ++ "-" ++ h)
  = "TICKET-" ++ strftime_Ymd d ++ "-".
Proof.
  unfold strftime_Ymd.
  destruct (ord2ymd (toordinal d)) as [[y m] dd].
  unfold py_prefix, pad4, pad2. cbn [append substring].
  destruct h; reflexivity.
Qed.

Lemma strftime_Ymd_same_day (d1 d2 : datetime) :
  toordinal d1 = toordinal d2 -> strftime_Ymd d1 = strftime_Ymd d2.
Proof. unfold strftime_Ymd. intros ->. reflexivity. Qed.

(** [create_ticket] always returns, reads the clock four times, and
    labels the ticket with the date of the first reading. *)
Lemma create_ticket_returns (hash : datetime -> Z) (strict : bool)
  (x : TicketCreate.t) (user : string) (w : World) :
  exists a,
    create_ticket hash strict x user w
    = (Ok a, {| clock := clock w; ticks := 4 + ticks w; logs := logs w |})
    /\ TicketResponse.id a = "TICKET-" ++ strftime_Ymd (clock w (ticks w)) ++ "-"
    /\ TicketResponse.title a = TicketCreate.title x
    /\ TicketResponse.created_by a = user.
Proof.
  eexists. split; [|split; [|split]].
  - unfold create_ticket, bind, now, lift, TicketResponse.new. cbn. reflexivity.
  - cbn. apply ticket_id_drops_hash.
  - reflexivity.
  - reflexivity.
Qed.

(** ** Where requests are routed *)

Lemma dispatch_create : dispatch POST ["api"; "tickets"] = Dispatched EP_create_ticket [].
Proof. reflexivity. Qed.

Lemma dispatch_list : dispatch GET ["api"; "tickets"] = Dispatched EP_list_tickets [].
Proof. reflexivity. Qed.

Ltac route_by Hid :=
  unfold dispatch, routes, api; cbn;
  rewrite ?(proj2 (String.eqb_neq _ _) Hid); reflexivity.

Lemma dispatch_get (ticket_id : string) :
  ticket_id <> "" ->
  dispatch GET ["api"; "tickets"; ticket_id]
  = Dispatched EP_get_ticket [("ticket_id", ticket_id)].
Proof. intros Hid. route_by Hid. Qed.

Lemma dispatch_put (ticket_id : string) :
  ticket_id <> "" ->
  dispatch PUT ["api"; "tickets"; ticket_id]
  = Dispatched EP_update_ticket [("ticket_id", ticket_id)].
Proof. intros Hid. route_by Hid. Qed.

Lemma dispatch_comments (ticket_id : string) :
  ticket_id <> "" ->
  dispatch POST ["api"; "tickets"; ticket_id; "comments"]
  = Dispatched EP_add_ticket_comment [("ticket_id", ticket_id)].
Proof. intros Hid. route_by Hid. Qed.

Lemma dispatch_assign (ticket_id : string) :
  ticket_id <> "" ->
  dispatch POST ["api"; "tickets"; ticket_id; "assign"]
  = Dispatched EP_assign_ticket [("ticket_id", ticket_id)].
Proof. intros Hid. route_by Hid. Qed.

Lemma dispatch_history (ticket_id : string) :
  ticket_id <> "" ->
  dispatch GET ["api"; "tickets"; ticket_id; "history"]
  = Dispatched EP_get_ticket_history [("ticket_id", ticket_id)].
Proof. intros Hid. route_by Hid. Qed.

(** What [POST /api/tickets] answers. *)
Lemma serve_post_ticket (env : Env) (x : TicketCreate.t) (w : World) :
  exists a,
    serve env (post_ticket x) w
    = (Ok (Answer (ok Ticket a)),
       {| clock := clock w; ticks := 4 + ticks w; logs := logs w |})
    /\ TicketResponse.id a = "TICKET-" ++ strftime_Ymd (clock w (ticks w)) ++ "-"
    /\ TicketResponse.title a = TicketCreate.title x
    /\ TicketResponse.created_by a = "user123".
Proof.
  destruct (create_ticket_returns (py_hash env) (optional_required env)
              x "user123" w) as (a & Hrun & Hrest).
  exists a. split; [|exact Hrest].
  unfold serve, post_ticket. cbn [req_method req_path req_query req_body].
  rewrite dispatch_create. cbn [query_get].
  unfold respond. rewrite Hrun. reflexivity.
Qed.

(** ** Creating tickets *)

(** C1, evaluated on the code: two tickets created through
    [POST /api/tickets] on the same calendar day receive the same id,
    whatever the two inputs, whatever happened in between and whatever
    [hash] returns.  The id is meant to be [TICKET-<date>-<hash>], but
    the slice [[:16]] keeps only [TICKET-<date>-]. *)
Theorem create_ids_collide_within_a_day
  (env : Env) (x y : TicketCreate.t) (w1 w2 : World) :
  toordinal (clock w1 (ticks w1)) = toordinal (clock w2 (ticks w2)) ->
  exists a b w1' w2',
    serve env (post_ticket x) w1 = (Ok (Answer (ok Ticket a)), w1')
    /\ serve env (post_ticket y) w2 = (Ok (Answer (ok Ticket b)), w2')
    /\ TicketResponse.id a = TicketResponse.id b.
Proof.
  intros Hday.
  destruct (serve_post_ticket env x w1) as (a & Ha & Hida & _).
  destruct (serve_post_ticket env y w2) as (b & Hb & Hidb & _).
  exists a, b. do 2 eexists. repeat split; [exact Ha | exact Hb |].
  rewrite Hida, Hidb, (strftime_Ymd_same_day _ _ Hday). reflexivity.
Qed.

Lemma create_ids_collide_witness :
  toordinal (clock sample_world (ticks sample_world))
  = toordinal (clock later_world (ticks later_world))
  /\ exists a b w1' w2',
       serve (sample_env false) (post_ticket crash_on_export) sample_world
       = (Ok (Answer (ok Ticket a)), w1')
       /\ serve (sample_env false) (post_ticket render_farm_feature) later_world
          = (Ok (Answer (ok Ticket b)), w2')
       /\ TicketResponse.id a = TicketResponse.id b.
Proof.
  split.
  - vm_compute. reflexivity.
  - apply (create_ids_collide_within_a_day (sample_env false)
             crash_on_export render_farm_feature sample_world later_world).
    vm_compute. reflexivity.
Defined.

(** The ids of two tickets created one after the other on 2024-01-15. *)
Example two_tickets_one_id :
  forall strict : bool,
    match serve (sample_env strict) (post_ticket crash_on_export) sample_world with
    | (Ok (Answer {| body := Ticket a |}), w1) =>
        match serve (sample_env strict) (post_ticket render_farm_feature) w1 with
        | (Ok (Answer {| body := Ticket b |}), _) =>
            TicketResponse.id a = "TICKET-20240115-"
            /\ TicketResponse.id b = "TICKET-20240115-"
        | _ => False
        end
    | _ => False
    end.
Proof. intros []; vm_compute; split; reflexivity. Qed.

(** The handler registered second for [POST /api/tickets] keeps the
    hash, and repeats an id whenever the clock repeats a reading. *)
Lemma create_ticket_1806_id (hash : datetime -> Z) (x : TicketCreate.t) (w : World) :
  exists d w', create_ticket_1806 hash x w = (Ok (JDict d), w')
    /\ dict_get "id" d = Some (JStr ("TICKET-" ++ str_int (hash (clock w (ticks w))))).
Proof. do 2 eexists. split; reflexivity. Qed.

(** ** Looking tickets up *)

Ltac serve_by Hroute :=
  unfold serve;
  cbn [req_method req_path req_query req_body get_ticket_req put_ticket
       post_comment post_assign get_history];
  rewrite Hroute;
  cbn [path_param dict_get query_get String.eqb Ascii.eqb Bool.eqb].

(** [GET /api/tickets/{id}] answers for every id, without looking it up. *)
Lemma serve_get_ticket (env : Env) (ticket_id : string) (w : World) :
  ticket_id <> "" ->
  fst (serve env (get_ticket_req ticket_id) w)
  = Ok (Answer
          (if optional_required env then internal_server_error
           else ok Ticket (sample_response ticket_id (clock w (ticks w))
                             (clock w (S (ticks w)))))).
Proof.
  intros Hid. serve_by (dispatch_get ticket_id Hid).
  unfold respond, get_ticket, bind, now, lift, TicketResponse.new. cbn.
  destruct (optional_required env); reflexivity.
Qed.

Lemma serve_post_comment (env : Env) (ticket_id c a : string)
  (created_at : option datetime) (attachments : list string) (w : World) :
  ticket_id <> "" ->
  fst (serve env (post_comment ticket_id c a created_at attachments) w)
  = Ok (Answer (ok Json
         (JDict [("message", JStr "Comment added successfully");
                 ("ticket_id", JStr ticket_id);
                 ("comment_id",
                  JStr ("comment_"
                        ++ str_int
                             (py_hash env
                                (clock w (match created_at with
                                          | Some _ => ticks w
                                          | None => S (ticks w)
                                          end)))))]))).
Proof.
  intros Hid.
  destruct created_at; serve_by (dispatch_comments ticket_id Hid);
    unfold respond, add_ticket_comment, bind, now, ret; cbn; reflexivity.
Qed.

Lemma serve_post_assign (env : Env) (ticket_id assignee : string) (w : World) :
  ticket_id <> "" ->
  fst (serve env (post_assign ticket_id assignee) w)
  = Ok (Answer (ok Json
         (JDict [("message", JStr "Ticket assigned successfully");
                 ("ticket_id", JStr ticket_id);
                 ("assignee", JStr assignee)]))).
Proof.
  intros Hid. serve_by (dispatch_assign ticket_id Hid). reflexivity.
Qed.

Lemma serve_get_history (env : Env) (ticket_id : string) (w : World) :
  ticket_id <> "" ->
  serve env (get_history ticket_id) w
  = (Ok (Answer (ok Json
          (JDict
             [("ticket_id", JStr ticket_id);
              ("history",
               JList
                 [history_event (Datetime.sub (clock w (ticks w)) (days 1))
                    "created" "user123" "Ticket created";
                  history_event
                    (Datetime.sub (clock w (1 + ticks w)) (hours 12))
                    "status_changed" "user456"
                    "Status changed from 'open' to 'in_progress'";
                  history_event
                    (Datetime.sub (clock w (2 + ticks w)) (hours 2))
                    "comment_added" "user789"
                    "Added comment: 'Working on this now'"])]))),
     {| clock := clock w; ticks := 3 + ticks w; logs := logs w |}).
Proof.
  intros Hid. serve_by (dispatch_history ticket_id Hid). reflexivity.
Qed.

Lemma serve_put_ticket (env : Env) (ticket_id : string) (u : TicketUpdate.t)
  (w : World) :
  ticket_id <> "" ->
  fst (serve env (put_ticket ticket_id u) w)
  = Ok (Answer
          (if optional_required env then internal_server_error
           else ok Ticket (update_response ticket_id u (clock w (ticks w))
                             (clock w (S (ticks w)))))).
Proof.
  intros Hid. serve_by (dispatch_put ticket_id Hid).
  unfold respond, update_ticket, bind, now, lift, TicketResponse.new. cbn.
  destruct (optional_required env); reflexivity.
Qed.

Lemma one_segment_not_empty (s : string) : one_segment s = true -> s <> "".
Proof. intros H ->. discriminate H. Qed.

(** C2, as the code has it: no ticket operation looks the id up, and
    none answers 404.  For every id that is one segment of the path,
    [get] answers 200 with the sample ticket under that id and [update]
    200 with the ticket built from the request under that id (both 500
    where the response model rejects the mock for the optional fields it
    omits); [addComment], [assign] and [history] answer 200 with their
    success payload, which names the id: a fresh comment id, the
    assignee, and the three fixed events. *)
Theorem ticket_operations_never_not_found
  (env : Env) (ticket_id : string) (w : World) :
  one_segment ticket_id = true ->
  fst (serve env (get_ticket_req ticket_id) w)
  = Ok (Answer
          (if optional_required env then internal_server_error
           else ok Ticket (sample_response ticket_id (clock w (ticks w))
                             (clock w (S (ticks w))))))
  /\ (forall u,
        fst (serve env (put_ticket ticket_id u) w)
        = Ok (Answer
                (if optional_required env then internal_server_error
                 else ok Ticket (update_response ticket_id u (clock w (ticks w))
                                   (clock w (S (ticks w)))))))
  /\ (forall c a created_at attachments,
        fst (serve env (post_comment ticket_id c a created_at attachments) w)
        = Ok (Answer (ok Json
               (JDict [("message", JStr "Comment added successfully");
                       ("ticket_id", JStr ticket_id);
                       ("comment_id",
                        JStr ("comment_"
                              ++ str_int
                                   (py_hash env
                                      (clock w (match created_at with
                                                | Some _ => ticks w
                                                | None => S (ticks w)
                                                end)))))]))))
  /\ (forall assignee,
        fst (serve env (post_assign ticket_id assignee) w)
        = Ok (Answer (ok Json
               (JDict [("message", JStr "Ticket assigned successfully");
                       ("ticket_id", JStr ticket_id);
                       ("assignee", JStr assignee)]))))
  /\ fst (serve env (get_history ticket_id) w)
     = Ok (Answer (ok Json
            (JDict
               [("ticket_id", JStr ticket_id);
                ("history",
                 JList
                   [history_event (Datetime.sub (clock w (ticks w)) (days 1))
                      "created" "user123" "Ticket created";
                    history_event
                      (Datetime.sub (clock w (1 + ticks w)) (hours 12))
                      "status_changed" "user456"
                      "Status changed from 'open' to 'in_progress'";
                    history_event
                      (Datetime.sub (clock w (2 + ticks w)) (hours 2))
                      "comment_added" "user789"
                      "Added comment: 'Working on this now'"])]))).
Proof.
  intros Hseg. pose proof (one_segment_not_empty ticket_id Hseg) as Hid.
  repeat split.
  - exact (serve_get_ticket env ticket_id w Hid).
  - intros u. exact (serve_put_ticket env ticket_id u w Hid).
  - intros c a created_at attachments.
    exact (serve_post_comment env ticket_id c a created_at attachments w Hid).
  - intros assignee. exact (serve_post_assign env ticket_id assignee w Hid).
  - rewrite (serve_get_history env ticket_id w Hid). reflexivity.
Qed.

Lemma ticket_operations_never_not_found_witness :
  one_segment "NO-SUCH-TICKET" = true
  /\ fst (serve (sample_env false) (get_ticket_req "NO-SUCH-TICKET") sample_world)
     = Ok (Answer
             (ok Ticket
                (sample_response "NO-SUCH-TICKET"
                   (clock sample_world (ticks sample_world))
                   (clock sample_world (S (ticks sample_world))))))
  /\ fst (serve (sample_env false) (post_assign "NO-SUCH-TICKET" "alice")
            sample_world)
     = Ok (Answer (ok Json
            (JDict [("message", JStr "Ticket assigned successfully");
                    ("ticket_id", JStr "NO-SUCH-TICKET");
                    ("assignee", JStr "alice")]))).
Proof.
  split; [reflexivity|].
  destruct (ticket_operations_never_not_found (sample_env false)
              "NO-SUCH-TICKET" sample_world eq_refl)
    as (Hget & _ & _ & Hassign & _).
  split; [exact Hget | exact (Hassign "alice")].
Defined.

(** C2 as stated fails: nothing has been stored under [NO-SUCH-TICKET],
    and in no environment does [GET /api/tickets/NO-SUCH-TICKET] answer
    404. *)
Lemma get_unknown_ticket_is_not_404 :
  ~ (exists (env : Env) (w : World),
       status_of (fst (serve env (get_ticket_req "NO-SUCH-TICKET") w)) = 404).
Proof.
  intros (env & w & H).
  rewrite serve_get_ticket in H by discriminate.
  destruct (optional_required env); discriminate H.
Qed.

(** The only 404 of the ticket routes is the router's own, for a path
    that no route matches: an id with a [/] in it makes a path of one
    segment more. *)
Example id_with_a_slash_is_two_segments (env : Env) (w : World) :
  fst (serve env (mk_request GET ["api"; "tickets"; "NO-SUCH"; "TICKET"] [] NoBody) w)
  = Ok (Answer {| status_code := 404; body := Detail "Not Found" |}).
Proof. reflexivity. Qed.

(** ** Reading back what was created *)

Lemma created_id_not_empty (d : datetime) : "TICKET-" ++ strftime_Ymd d ++ "-" <> "".
Proof. discriminate. Qed.

(** C3, as the code has it: [get] on the id of a ticket just created
    answers with the fixed sample ticket relabelled with that id.  Only
    the id is that of the created ticket; every other field is a constant
    of the handler or the time of the [get] itself.  Where the response
    model rejects the mock, the answer is 500. *)
Theorem get_after_create_is_the_mock (env : Env) (x : TicketCreate.t) (w : World) :
  exists a w1,
    serve env (post_ticket x) w = (Ok (Answer (ok Ticket a)), w1)
    /\ fst (serve env (get_ticket_req (TicketResponse.id a)) w1)
       = Ok (Answer
               (if optional_required env then internal_server_error
                else ok Ticket
                       (sample_response (TicketResponse.id a)
                          (clock w1 (ticks w1)) (clock w1 (S (ticks w1)))))).
Proof.
  destruct (serve_post_ticket env x w) as (a & Ha & Hid & _).
  eexists a, _. split; [exact Ha|].
  apply serve_get_ticket. rewrite Hid. apply created_id_not_empty.
Qed.

(** C3 as stated fails: in no environment does [get] return the ticket
    that [create] returned for the input [crash_on_export]. *)
Lemma get_after_create_differs :
  ~ (exists (env : Env) (w : World) (a : TicketResponse.t) (w1 : World),
       serve env (post_ticket crash_on_export) w = (Ok (Answer (ok Ticket a)), w1)
       /\ fst (serve env (get_ticket_req (TicketResponse.id a)) w1)
          = Ok (Answer (ok Ticket a))).
Proof.
  intros (env & w & a & w1 & Hcreate & Hget).
  destruct (serve_post_ticket env crash_on_export w) as (a' & Ha' & Hid & Htitle & _).
  rewrite Ha' in Hcreate. injection Hcreate as <- <-.
  rewrite serve_get_ticket in Hget
    by (rewrite Hid; apply created_id_not_empty).
  destruct (optional_required env); [discriminate Hget|].
  injection Hget as Hget. rewrite <- Hget in Htitle. discriminate Htitle.
Qed.

(** ** Updating *)




(** ** The OAuth callback *)

Lemma dispatch_callback :
  dispatch GET ["auth"; "callback"] = Dispatched EP_discord_callback [].
Proof. reflexivity. Qed.

Lemma keeps_ret {A} (a : A) : keeps_world (ret a).
Proof. intros w. reflexivity. Qed.

Lemma keeps_raise {A} (e : exn) : keeps_world (@raise A e).
Proof. intros w. reflexivity. Qed.

Lemma keeps_lift {A} (r : res A) : keeps_world (lift r).
Proof. intros w. reflexivity. Qed.

Lemma keeps_bind {A B} (m : M A) (k : A -> M B) :
  keeps_world m -> (forall a, keeps_world (k a)) -> keeps_world (bind m k).
Proof.
  intros Hm Hk w. unfold bind. specialize (Hm w).
  destruct (m w) as [[a|e] w']; cbn in Hm; subst w'; [apply Hk | reflexivity].
Qed.

Lemma keeps_if {A} (b : bool) (m1 m2 : M A) :
  keeps_world m1 -> keeps_world m2 -> keeps_world (if b then m1 else m2).
Proof. destruct b; trivial. Qed.

Create HintDb keeps.
#[local] Hint Resolve keeps_ret keeps_raise keeps_lift keeps_bind keeps_if : keeps.

(** The attempt talks to the two upstream endpoints and touches nothing
    else. *)
Lemma callback_attempt_keeps_world (env : Env) (code : string) :
  keeps_world (callback_attempt env code).
Proof.
  unfold callback_attempt, discord_callback_try. auto 12 with keeps.
Qed.

(** How the handler and the framework turn the attempt into an answer. *)
Lemma serve_callback (env : Env) (code : string) (w : World) :
  serve env (get_callback code) w
  = match fst (callback_attempt env code w) with
    | Ok v => (Ok (Answer (encoded (encodes env) v)), w)
    | Raised e =>
        let text := py_str (str_HTTPException env) e in
        (Ok (Answer {| status_code := 400; body := Detail text |}),
         {| clock := clock w; ticks := ticks w;
            logs := logs w ++ ["Error in Discord callback: " ++ text] |})
    end.
Proof.
  unfold serve, get_callback. cbn [req_method req_path req_query req_body].
  rewrite dispatch_callback. cbn [query_get String.eqb Ascii.eqb Bool.eqb].
  unfold respond, discord_callback, try_except.
  fold (callback_attempt env code).
  pose proof (callback_attempt_keeps_world env code w) as Hw.
  destruct (callback_attempt env code w) as [[v|e] w']; cbn in Hw; subst w';
    reflexivity.
Qed.

Lemma callback_attempt_non_200 (env : Env) (code message : string) (w : World) :
  upstream_non_200 env code message ->
  fst (callback_attempt env code w) = Raised (HTTPException 400 message).
Proof.
  unfold callback_attempt, discord_callback_try, bind, lift, raise, ret.
  fold (callback_form env code).
  intros [(r & Ht & Hs & ->)
         | (r & td & bearer & r2 & Ht & Hs & Hj & Hb & Hu & Hs2 & ->)];
    rewrite Ht.
  - apply Z.eqb_neq in Hs. rewrite Hs. reflexivity.
  - rewrite Hs. cbn. rewrite Hj, Hb, Hu.
    apply Z.eqb_neq in Hs2. rewrite Hs2. reflexivity.
Qed.

(** C5, as the code has it: when the token endpoint, or after it the
    profile endpoint, answers with a status other than 200,
    [GET /auth/callback] answers 400, and the detail is [str] of an
    [HTTPException] raised with the fixed text [Failed to get access
    token], respectively [Failed to get user info]; the upstream body
    plays no part. *)
Theorem callback_non_200_answers_400
  (env : Env) (code message : string) (w : World) :
  upstream_non_200 env code message ->
  fst (serve env (get_callback code) w)
  = Ok (Answer {| status_code := 400;
                  body := Detail (str_HTTPException env 400 message) |}).
Proof.
  intros H. rewrite serve_callback.
  rewrite (callback_attempt_non_200 env code message w H). reflexivity.
Qed.

Lemma callback_non_200_answers_400_witness :
  upstream_non_200 (sample_env false) "abc" "Failed to get access token"
  /\ fst (serve (sample_env false) (get_callback "abc") sample_world)
     = Ok (Answer {| status_code := 400;
                     body := Detail "400: Failed to get access token" |}).
Proof.
  assert (H : upstream_non_200 (sample_env false) "abc"
                "Failed to get access token").
  { left. eexists. split; [reflexivity|]. split; [discriminate|reflexivity]. }
  split; [exact H|].
  exact (callback_non_200_answers_400 (sample_env false) "abc"
           "Failed to get access token" sample_world H).
Defined.

(** C5 as stated fails: whatever [str] makes of an [HTTPException], the
    detail of the 400 cannot be the upstream body, since the two rejected
    exchanges with bodies [invalid_grant] and [server_error] get the same
    answer. *)
Lemma upstream_body_is_not_propagated :
  ~ (exists strf : Z -> string -> string,
       forall upstream_body : string,
         fst (serve (rejecting_env strf upstream_body) (get_callback "abc")
                sample_world)
         = Ok (Answer {| status_code := 400; body := Detail upstream_body |})).
Proof.
  intros [strf H].
  pose proof (H "invalid_grant") as H1.
  pose proof (H "server_error") as H2.
  rewrite serve_callback in H1, H2. cbn in H1, H2.
  injection H1 as H1. injection H2 as H2.
  rewrite H1 in H2. discriminate H2.
Qed.

(** A lookup [v[key]] gives a value exactly on a dict that holds the
    key. *)
Lemma subscript_ok (v : json) (key : string) (x : json) :
  subscript v key = Ok x <-> exists d, v = JDict d /\ dict_get key d = Some x.
Proof.
  split.
  - destruct v; cbn; try discriminate.
    destruct (dict_get key d) eqn:Hd; [|discriminate].
    intros H. injection H as <-. eexists. split; [reflexivity | exact Hd].
  - intros (d & -> & Hd). cbn. rewrite Hd. reflexivity.
Qed.

(** The attempt returns exactly when both upstream calls succeed, and
    then hands on the profile and the token. *)
Lemma callback_attempt_ok (env : Env) (code : string) (v : json) (w : World) :
  fst (callback_attempt env code w) = Ok v
  <-> exists user token,
        upstream_ok env code user token
        /\ v = JDict [("user", user); ("access_token", token)].
Proof.
  unfold callback_attempt, discord_callback_try, bind, lift, raise, ret,
    upstream_ok.
  fold (callback_form env code).
  split.
  - destruct (token_endpoint env (callback_form env code)) as [r|e] eqn:Ht;
      [|discriminate].
    destruct (up_status r =? 200) eqn:Hs; cbn; [|discriminate].
    destruct (up_json r) as [td|e] eqn:Hj; [|discriminate].
    destruct (subscript td "access_token") as [tok|e] eqn:Hb; [|discriminate].
    destruct (users_me env tok) as [r2|e] eqn:Hu; [|discriminate].
    destruct (up_status r2 =? 200) eqn:Hs2; cbn; [|discriminate].
    destruct (up_json r2) as [u|e] eqn:Hj2; [|discriminate].
    intros H. injection H as <-.
    apply subscript_ok in Hb. destruct Hb as (d & -> & Hd).
    exists u, tok. split; [|reflexivity].
    exists r, d, r2. apply Z.eqb_eq in Hs, Hs2. repeat split; assumption.
  - intros (u & tok & (r & d & r2 & Ht & Hs & Hj & Hd & Hu & Hs2 & Hj2) & ->).
    rewrite Ht, Hs. cbn. rewrite Hj. cbn. rewrite Hd, Hu, Hs2. cbn. rewrite Hj2.
    reflexivity.
Qed.

(** Each way of failing makes the attempt raise the exception it
    names. *)
Lemma callback_attempt_fails (env : Env) (code : string) (e : exn) (w : World) :
  callback_fails env code e -> fst (callback_attempt env code w) = Raised e.
Proof.
  unfold callback_fails, callback_attempt, discord_callback_try, bind, lift,
    raise, ret.
  fold (callback_form env code).
  intros [Ht | (r & Ht & H)]; rewrite Ht; [reflexivity|].
  destruct H as [[Hs ->] | [[Hs Hj] | (td & Hs & Hj & H)]].
  - apply Z.eqb_neq in Hs. rewrite Hs. reflexivity.
  - rewrite Hs. cbn. rewrite Hj. reflexivity.
  - rewrite Hs. cbn. rewrite Hj.
    destruct H as [(d & -> & Hd & ->) | [[_ Hb] | (d & tok & -> & Hd & H)]].
    + cbn. rewrite Hd. reflexivity.
    + rewrite Hb. reflexivity.
    + cbn. rewrite Hd.
      destruct H as [Hu | (r2 & Hu & [[Hs2 ->] | [Hs2 Hj2]])]; rewrite Hu;
        [reflexivity | |].
      * apply Z.eqb_neq in Hs2. rewrite Hs2. reflexivity.
      * rewrite Hs2. cbn. rewrite Hj2. reflexivity.
Qed.

(** Whatever the upstream endpoints do, the attempt fails in one of the
    ways listed or both calls succeed. *)
Lemma callback_fails_or_ok (env : Env) (code : string) :
  (exists e, callback_fails env code e)
  \/ (exists user token, upstream_ok env code user token).
Proof.
  unfold callback_fails, upstream_ok.
  destruct (token_endpoint env (callback_form env code)) as [r|e] eqn:Ht;
    [|left; exists e; left; reflexivity].
  destruct (Z.eq_dec (up_status r) 200) as [Hs|Hs];
    [|left; eexists; right; exists r; split; [reflexivity|];
      left; split; [exact Hs | reflexivity]].
  destruct (up_json r) as [td|e] eqn:Hj;
    [|left; exists e; right; exists r; split; [reflexivity|];
      right; left; split; assumption].
  destruct (subscript td "access_token") as [tok|e] eqn:Hb.
  - apply subscript_ok in Hb. destruct Hb as (d & -> & Hd).
    destruct (users_me env tok) as [r2|e] eqn:Hu.
    + destruct (Z.eq_dec (up_status r2) 200) as [Hs2|Hs2].
      * destruct (up_json r2) as [u|e] eqn:Hj2.
        -- right. exists u, tok, r, d, r2. repeat split; assumption.
        -- left. exists e. right. exists r. split; [reflexivity|].
           right; right. exists (JDict d). split; [exact Hs|].
           split; [exact Hj|]. right; right. exists d, tok.
           split; [reflexivity|]. split; [exact Hd|].
           right. exists r2. split; [exact Hu|]. right. split; assumption.
      * left. eexists. right. exists r. split; [reflexivity|].
        right; right. exists (JDict d). split; [exact Hs|].
        split; [exact Hj|]. right; right. exists d, tok.
        split; [reflexivity|]. split; [exact Hd|].
        right. exists r2. split; [exact Hu|]. left.
        split; [exact Hs2 | reflexivity].
    + left. exists e. right. exists r. split; [reflexivity|].
      right; right. exists (JDict d). split; [exact Hs|].
      split; [exact Hj|]. right; right. exists d, tok.
      split; [reflexivity|]. split; [exact Hd|]. left. exact Hu.
  - left. exists e. right. exists r. split; [reflexivity|].
    right; right. exists td. split; [exact Hs|]. split; [exact Hj|].
    destruct td as [ |b|z|q|x|s|t|l|d];
      try (right; left; split; [discriminate | exact Hb]).
    left. exists d. cbn in Hb.
    destruct (dict_get "access_token" d) eqn:Hd; [discriminate Hb|].
    injection Hb as <-. repeat split.
Qed.

(** C10, as the code has it.  Every exception raised inside the [try]
    of [GET /auth/callback], in each of the ways the two upstream calls
    can fail, the lookup of a missing [access_token] among them, is
    answered with 400 whose detail is [str] of that exception, after one
    line has been logged; nothing else of the world changes.  When both
    calls succeed the handler returns the profile and the token, and the
    answer is 200 where the framework can encode them and 500 where it
    cannot: that failure arises after the handler has returned, outside
    its [try].  One of the two always is the case. *)
Theorem callback_exceptions_become_400 (env : Env) (code : string) (w : World) :
  (forall e,
     callback_fails env code e ->
     serve env (get_callback code) w
     = (Ok (Answer {| status_code := 400;
                      body := Detail (py_str (str_HTTPException env) e) |}),
        {| clock := clock w; ticks := ticks w;
           logs := logs w ++ ["Error in Discord callback: "
                              ++ py_str (str_HTTPException env) e] |}))
  /\ (forall user token,
        upstream_ok env code user token ->
        serve env (get_callback code) w
        = (Ok (Answer
                 (if encodes env (JDict [("user", user); ("access_token", token)])
                  then ok Json (JDict [("user", user); ("access_token", token)])
                  else internal_server_error)),
           w))
  /\ ((exists e, callback_fails env code e)
      \/ (exists user token, upstream_ok env code user token)).
Proof.
  split; [|split].
  - intros e He. rewrite serve_callback.
    rewrite (callback_attempt_fails env code e w He). reflexivity.
  - intros user token Hok. rewrite serve_callback.
    rewrite (proj2 (callback_attempt_ok env code _ w)
               (ex_intro _ user (ex_intro _ token (conj Hok eq_refl)))).
    reflexivity.
  - apply callback_fails_or_ok.
Qed.

(** A token answer of status 200 without [access_token]: the lookup
    raises [KeyError], whose text is the key in quotes. *)
Lemma callback_exceptions_become_400_witness :
  callback_fails tokenless_env "abc" (PyError "KeyError" "'access_token'")
  /\ serve tokenless_env (get_callback "abc") sample_world
     = (Ok (Answer {| status_code := 400; body := Detail "'access_token'" |}),
        {| clock := clock sample_world; ticks := ticks sample_world;
           logs := logs sample_world
                   ++ ["Error in Discord callback: 'access_token'"] |}).
Proof.
  assert (H : callback_fails tokenless_env "abc"
                (PyError "KeyError" "'access_token'")).
  { right. eexists. split; [reflexivity|]. right; right. eexists.
    split; [reflexivity|]. split; [reflexivity|]. left. eexists.
    repeat split. }
  split; [exact H|].
  exact (proj1 (callback_exceptions_become_400 tokenless_env "abc" sample_world)
           _ H).
Defined.

(** C10 as stated fails: the callback can answer 500.  Both upstream
    calls succeed, the profile holds a float that is not finite, and the
    value that the handler returns cannot be encoded. *)
Lemma callback_answers_500 :
  upstream_ok overflow_env "abc"
    (JDict [("id", JStr "80351110224678912");
            ("accent_color", JNonFinite Infinity)])
    (JStr "6qrZcUqja7812RVdnEKjpzOL4CvHBFG")
  /\ serve overflow_env (get_callback "abc") sample_world
     = (Ok (Answer internal_server_error), sample_world).
Proof.
  split; [|reflexivity].
  do 3 eexists. repeat split.
Qed.

(** ** Which handler serves a route *)

(** A request is handed to a handler only by the walk over the table. *)
Lemma dispatch_dispatched (m : http_method) (path : list string)
  (e : endpoint) (params : path_params) :
  dispatch m path = Dispatched e params ->
  dispatch_in routes m path false = Dispatched e params.
Proof.
  unfold dispatch. generalize (dispatch_in routes m path false) as d.
  intros [| | |e' ps] H; try discriminate H; [|exact H].
  destruct path; [discriminate H|].
  destruct (toggle_slash _); [|discriminate H].
  destruct (matches_some routes m _); discriminate H.
Qed.

(** A dispatched request was fully matched by a route of the table. *)
Lemma dispatch_in_sound (table : list route) (m : http_method)
  (path : list string) (e : endpoint) (params : path_params) :
  forall partial,
    dispatch_in table m path partial = Dispatched e params ->
    exists r, In r table /\ matches r m path = Full e params.
Proof.
  induction table as [|r rest IH]; intros partial H; cbn in H.
  - destruct partial; discriminate H.
  - destruct (matches r m path) as [| |e' ps] eqn:Hr.
    + destruct (IH _ H) as (r' & Hin & Hm). exists r'. split; [right|]; assumption.
    + destruct (IH _ H) as (r' & Hin & Hm). exists r'. split; [right|]; assumption.
    + injection H as <- <-. exists r. split; [left; reflexivity | exact Hr].
Qed.

Lemma matches_full (r : route) (m : http_method) (path : list string)
  (e : endpoint) (params : path_params) :
  matches r m path = Full e params ->
  route_endpoint r = e
  /\ match r with
     | Mount prefix _ => has_prefix prefix path = true
     | Route m' pattern _ => m = m' /\ match_path pattern path = Some params
     end.
Proof.
  destruct r as [prefix e'|m' pattern e']; cbn.
  - destruct (has_prefix prefix path); [|discriminate].
    intros H. injection H as <- _. split; reflexivity.
  - destruct (match_path pattern path) as [ps|]; [|discriminate].
    destruct (http_method_eqb m m') eqn:Hm; [|discriminate].
    intros H. injection H as <- <-. repeat split.
    destruct m, m'; (reflexivity || discriminate Hm).
Qed.

(** A pattern made of literals matches one path only. *)
Lemma match_path_literals (lits : list string) (path : list string)
  (params : path_params) :
  match_path (map Lit lits) path = Some params -> path = lits.
Proof.
  revert path. induction lits as [|l lits IH]; intros [|x path] H; cbn in H;
    try discriminate H; [reflexivity|].
  destruct (String.eqb_spec l x) as [->|]; [|discriminate H].
  f_equal. apply IH. exact H.
Qed.

(** The only route of an endpoint, found by walking the table. *)
Ltac the_route_of Hin Hep :=
  unfold routes in Hin; cbn [In] in Hin;
  repeat (destruct Hin as [Hin|Hin];
          [subst; first [discriminate Hep | idtac]|]);
  try contradiction.

Lemma unreachable_literal_route (m0 : http_method) (lits : list string)
  (e0 : endpoint) :
  (forall r, In r routes -> route_endpoint r = e0 -> r = Route m0 (map Lit lits) e0) ->
  (forall params, dispatch m0 lits <> Dispatched e0 params) ->
  forall m path params, dispatch m path <> Dispatched e0 params.
Proof.
  intros Honly Hfirst m path params H. pose proof H as Hd.
  apply dispatch_dispatched in Hd. apply dispatch_in_sound in Hd.
  destruct Hd as (r & Hin & Hm).
  destruct (matches_full _ _ _ _ _ Hm) as [Hep Hr].
  rewrite (Honly r Hin Hep) in Hr. destruct Hr as [-> Hpath].
  apply match_path_literals in Hpath. subst path.
  exact (Hfirst params H).
Qed.

Lemma create_ticket_1806_unreachable (m : http_method) (path : list string)
  (params : path_params) :
  dispatch m path <> Dispatched EP_create_ticket_1806 params.
Proof.
  apply (unreachable_literal_route POST ["api"; "tickets"]).
  - intros r Hin Hep. the_route_of Hin Hep. reflexivity.
  - intros ps. rewrite dispatch_create. discriminate.
Qed.

Lemma get_tickets_unreachable (m : http_method) (path : list string)
  (params : path_params) :
  dispatch m path <> Dispatched EP_get_tickets params.
Proof.
  apply (unreachable_literal_route GET ["api"; "tickets"]).
  - intros r Hin Hep. the_route_of Hin Hep. reflexivity.
  - intros ps. rewrite dispatch_list. discriminate.
Qed.

Lemma dispatch_statistics :
  dispatch GET ["api"; "tickets"; "statistics"]
  = Dispatched EP_get_ticket [("ticket_id", "statistics")].
Proof. reflexivity. Qed.

Lemma get_ticket_statistics_unreachable (m : http_method) (path : list string)
  (params : path_params) :
  dispatch m path <> Dispatched EP_get_ticket_statistics params.
Proof.
  apply (unreachable_literal_route GET ["api"; "tickets"; "statistics"]).
  - intros r Hin Hep. the_route_of Hin Hep. reflexivity.
  - intros ps. rewrite dispatch_statistics. discriminate.
Qed.

(** C8, as the code has it: of the two handlers registered for
    [POST /api/tickets] and of the two registered for [GET /api/tickets],
    the one registered first serves every request, and no request at all
    reaches the one registered later. *)
Theorem first_registration_serves :
  dispatch POST ["api"; "tickets"] = Dispatched EP_create_ticket []
  /\ dispatch GET ["api"; "tickets"] = Dispatched EP_list_tickets []
  /\ forall m path params,
       dispatch m path <> Dispatched EP_create_ticket_1806 params
       /\ dispatch m path <> Dispatched EP_get_tickets params.
Proof.
  split; [exact dispatch_create|]. split; [exact dispatch_list|].
  intros m path params. split.
  - apply create_ticket_1806_unreachable.
  - apply get_tickets_unreachable.
Qed.

(** C8 as stated fails: neither colliding route is served by the handler
    defined later in the file. *)
Lemma later_registration_does_not_serve :
  dispatch POST ["api"; "tickets"] <> Dispatched EP_create_ticket_1806 []
  /\ dispatch GET ["api"; "tickets"] <> Dispatched EP_get_tickets [].
Proof.
  split.
  - rewrite dispatch_create. discriminate.
  - rewrite dispatch_list. discriminate.
Qed.

(** ** Statistics *)

(** [get_ticket_statistics] returns one and the same body for every
    choice of filters. *)
Lemma statistics_ignore_filters
  (project_id : option string) (start_date end_date : option datetime) (w : World) :
  get_ticket_statistics project_id start_date end_date w
  = get_ticket_statistics None None None w.
Proof. reflexivity. Qed.

(** C7, evaluated on the code: [GET /api/tickets/statistics] is matched
    by the route [/api/tickets/{ticket_id}], registered earlier, with
    [ticket_id = "statistics"].  The answer is the mock ticket of
    [get_ticket] (or 500 where the response model rejects the mock) and
    not the aggregate; no request at all reaches
    [get_ticket_statistics]. *)
Theorem statistics_is_served_by_get_ticket
  (env : Env) (query : list (string * string)) (w : World) :
  dispatch GET ["api"; "tickets"; "statistics"]
  = Dispatched EP_get_ticket [("ticket_id", "statistics")]
  /\ fst (serve env (get_statistics query) w)
     = Ok (Answer
             (if optional_required env then internal_server_error
              else ok Ticket (sample_response "statistics" (clock w (ticks w))
                                (clock w (S (ticks w))))))
  /\ forall m path params,
       dispatch m path <> Dispatched EP_get_ticket_statistics params.
Proof.
  split; [exact dispatch_statistics|]. split.
  - unfold serve, get_statistics. cbn [req_method req_path req_query req_body].
    rewrite dispatch_statistics.
    cbn [path_param dict_get query_get String.eqb Ascii.eqb Bool.eqb].
    unfold respond, get_ticket, bind, now, lift, TicketResponse.new. cbn.
    destruct (optional_required env); reflexivity.
  - apply get_ticket_statistics_unreachable.
Qed.

(** ** Login *)

Lemma dispatch_login :
  dispatch GET ["auth"; "login"] = Dispatched EP_discord_login [].
Proof. reflexivity. Qed.

(** In a namespace that did bind [urllib], the handler would redirect to
    [authorize_url]. *)
Lemma discord_login_with_urllib (w : World) :
  fst (discord_login ("urllib" :: main_globals) w)
  = Ok (RedirectResponse authorize_url).
Proof. reflexivity. Qed.

(** C6, evaluated on the code: the module never binds the name [urllib],
    so [discord_login] raises [NameError] before any URL is built, and
    [GET /auth/login] is answered with 500 and no redirect. *)
Theorem login_raises_name_error
  (env : Env) (query : list (string * string)) (w : World) :
  discord_login main_globals w
  = (Raised (PyError "NameError" "name 'urllib' is not defined"), w)
  /\ serve env (mk_request GET ["auth"; "login"] query NoBody) w
     = (Ok (Answer internal_server_error), w).
Proof.
  split; [reflexivity|].
  unfold serve. cbn [req_method req_path req_query req_body].
  rewrite dispatch_login. reflexivity.
Qed.

(** ** Archived tickets *)

(** On the markdown text itself the script finds all four fields. *)
Lemma parse_markdown_source :
  Dashboard.parseTicketContent lighting_doc
  = {| Dashboard.title := Some "Fix lighting bug";
       Dashboard.author := Some "alice";
       Dashboard.created := None;
       Dashboard.status := Some "closed";
       Dashboard.tags := ["lighting"; "bug"] |}.
Proof. vm_compute. reflexivity. Qed.

(** On the rendered text no line starts with [#], and the last line
    ends with the closing tag of the paragraph. *)
Lemma parse_rendered_html :
  Dashboard.parseTicketContent lighting_html
  = {| Dashboard.title := None;
       Dashboard.author := Some "alice";
       Dashboard.created := None;
       Dashboard.status := Some "closed";
       Dashboard.tags := ["lighting"; "bug</p>"] |}.
Proof. vm_compute. reflexivity. Qed.

Lemma dispatch_old_tickets :
  dispatch GET ["api"; "old-tickets"] = Dispatched EP_get_old_tickets [].
Proof. reflexivity. Qed.

(** Without a line that starts with [#] there is no title. *)
Lemma title_needs_hash_line (s : string) :
  forall prev,
    Dashboard.no_hash_line prev s = true ->
    Dashboard.search Dashboard.title_re prev s = None.
Proof.
  induction s as [|c rest IH]; intros prev H.
  - cbn. destruct (Dashboard.at_bol prev); reflexivity.
  - cbn [Dashboard.no_hash_line] in H.
    apply andb_true_iff in H. destruct H as [Hc Hrest].
    cbn [Dashboard.search Dashboard.title_re Dashboard.match_here].
    destruct (Dashboard.at_bol prev); [|exact (IH _ Hrest)].
    destruct (Ascii.eqb "#" c); [discriminate Hc | exact (IH _ Hrest)].
Qed.

(** C9, evaluated on the code: for an archive of one document,
    [GET /api/old-tickets] answers with one entry of four keys, whose
    [content] is the document rendered to HTML.  The dashboard script
    extracts the fields from that [content], not from the markdown text:
    as soon as no line of the rendering starts with [#], as is the case
    for a heading rendered as [<h1>], it finds no title. *)
Theorem archived_title_is_read_from_html
  (env : Env) (md : md_file) (doc : string) (w : World) :
  tickets_dir env = Ok [md] ->
  read md = Ok doc ->
  Dashboard.no_hash_line None (markdown env doc) = true ->
  let entry :=
    JDict [("id", JStr (stem md));
           ("content", JStr (markdown env doc));
           ("file_path", JStr (file_path md));
           ("last_modified", JStr (isoformat (st_mtime md)))] in
  fst (serve env get_old_tickets_req w) = Ok (Answer (ok Json (JList [entry])))
  /\ map Dashboard.title (Dashboard.ticket_infos (JList [entry])) = [None].
Proof.
  intros Hdir Hread Hhtml entry. subst entry. split.
  - unfold serve, get_old_tickets_req.
    cbn [req_method req_path req_query req_body].
    rewrite dispatch_old_tickets.
    unfold respond, get_old_tickets, try_except, bind, lift, ret.
    rewrite Hdir. cbn [read_tickets]. rewrite Hread. reflexivity.
  - cbn [Dashboard.ticket_infos map Dashboard.content_of dict_get
         String.eqb Ascii.eqb Bool.eqb].
    unfold Dashboard.parseTicketContent. cbn [Dashboard.title].
    unfold Dashboard.group1.
    rewrite (title_needs_hash_line _ None Hhtml). reflexivity.
Qed.

Lemma archived_title_is_read_from_html_witness :
  tickets_dir archive_env = Ok [lighting_file]
  /\ read lighting_file = Ok lighting_doc
  /\ Dashboard.no_hash_line None (markdown archive_env lighting_doc) = true
  /\ fst (serve archive_env get_old_tickets_req sample_world)
     = Ok (Answer (ok Json (JList
         [JDict [("id", JStr "fix-lighting-bug");
                 ("content", JStr lighting_html);
                 ("file_path",
                  JStr "/Users/martintomek/vfx-discord-app/tickets/fix-lighting-bug.md");
                 ("last_modified", JStr "2024-01-15T10:00:00")]])))
  /\ map Dashboard.title
       (Dashboard.ticket_infos (JList
         [JDict [("id", JStr "fix-lighting-bug");
                 ("content", JStr lighting_html);
                 ("file_path",
                  JStr "/Users/martintomek/vfx-discord-app/tickets/fix-lighting-bug.md");
                 ("last_modified", JStr "2024-01-15T10:00:00")]]))
     = [None].
Proof.
  split; [reflexivity|]. split; [reflexivity|]. split; [reflexivity|].
  exact (archived_title_is_read_from_html archive_env lighting_file lighting_doc
           sample_world eq_refl eq_refl eq_refl).
Defined.

(** The scenario worked in full, with the renderer giving
    [lighting_html] for the document: one entry, no title, and a last tag
    that drags the end of the paragraph along. *)
Example archived_scenario :
  exists entry,
    fst (serve archive_env get_old_tickets_req sample_world)
    = Ok (Answer (ok Json (JList [entry])))
    /\ Dashboard.ticket_infos (JList [entry])
       = [ {| Dashboard.title := None;
              Dashboard.author := Some "alice";
              Dashboard.created := None;
              Dashboard.status := Some "closed";
              Dashboard.tags := ["lighting"; "bug</p>"] |} ].
Proof. eexists. split; vm_compute; reflexivity. Qed.

(** * Further properties of the code *)

(** ** The archive endpoint *)

Lemma last_modified_of_entry (render : string -> string) (md : md_file) :
  last_modified_of (old_ticket_entry render md) = isoformat (st_mtime md).
Proof. reflexivity. Qed.

(** The loop adds one entry per file, in listing order. *)
Lemma read_tickets_readable (render : string -> string) (files : list md_file) :
  Forall readable files ->
  forall tickets,
    read_tickets render files tickets
    = Ok (tickets ++ map (old_ticket_entry render) files)%list.
Proof.
  induction 1 as [|md rest [text Hmd] _ IH]; intros tickets; cbn [read_tickets map].
  - rewrite app_nil_r. reflexivity.
  - rewrite Hmd, IH, <- app_assoc. cbn [app].
    unfold old_ticket_entry, text_of. rewrite Hmd. reflexivity.
Qed.

(** The loop stops at the first file that cannot be read. *)
Lemma read_tickets_unreadable (render : string -> string)
  (good : list md_file) (bad : md_file) (rest : list md_file) (e : exn) :
  Forall readable good ->
  read bad = Raised e ->
  forall tickets,
    read_tickets render (good ++ bad :: rest) tickets = Raised e.
Proof.
  intros Hgood Hbad.
  induction Hgood as [|md good' [text Hmd] _ IH]; intros tickets;
    cbn [read_tickets app].
  - rewrite Hbad. reflexivity.
  - rewrite Hmd. apply IH.
Qed.

Lemma ltb_asym (a b : string) : String.ltb a b = true -> String.ltb b a = false.
Proof.
  unfold String.ltb. rewrite (String.compare_antisym b a).
  destruct (String.compare a b); cbn; congruence.
Qed.

Lemma insert_desc_perm (x : json) (l : list json) :
  Permutation (insert_desc x l) (x :: l).
Proof.
  induction l as [|y rest IH]; cbn [insert_desc]; [reflexivity|].
  destruct (String.ltb (last_modified_of y) (last_modified_of x));
    [reflexivity|].
  rewrite IH. apply perm_swap.
Qed.

Lemma insert_desc_hd (x a : json) (l : list json) :
  HdRel not_older a l -> not_older a x -> HdRel not_older a (insert_desc x l).
Proof.
  intros Hl Hx. destruct l as [|y rest]; cbn [insert_desc].
  - constructor. exact Hx.
  - destruct (String.ltb (last_modified_of y) (last_modified_of x));
      constructor; [exact Hx | inversion Hl; assumption].
Qed.

Lemma insert_desc_sorted (x : json) (l : list json) :
  Sorted not_older l -> Sorted not_older (insert_desc x l).
Proof.
  induction 1 as [|y rest Hrest IH Hhd]; cbn [insert_desc].
  - repeat constructor.
  - destruct (String.ltb (last_modified_of y) (last_modified_of x)) eqn:Hlt.
    + constructor; [constructor; assumption|].
      constructor. unfold not_older. apply ltb_asym. exact Hlt.
    + constructor; [exact IH|].
      apply insert_desc_hd; [exact Hhd | exact Hlt].
Qed.

Lemma fold_insert_desc (l acc : list json) :
  Sorted not_older acc ->
  Sorted not_older (fold_left (fun a x => insert_desc x a) l acc)
  /\ Permutation (fold_left (fun a x => insert_desc x a) l acc) (acc ++ l).
Proof.
  revert acc. induction l as [|x rest IH]; intros acc Hacc; cbn [fold_left].
  - rewrite app_nil_r. split; [exact Hacc | reflexivity].
  - destruct (IH _ (insert_desc_sorted x acc Hacc)) as [Hs Hp].
    split; [exact Hs|].
    rewrite Hp, insert_desc_perm. cbn [app]. apply Permutation_middle.
Qed.

Lemma sorted_desc_spec (l : list json) :
  Sorted not_older (sorted_desc l) /\ Permutation (sorted_desc l) l.
Proof.
  unfold sorted_desc.
  destruct (fold_insert_desc l [] (Sorted_nil _)) as [Hs Hp].
  split; assumption.
Qed.

(** X1: when the directory can be listed and every file read,
    [GET /api/old-tickets] answers 200 with exactly one entry per file,
    the file's stem as [id] and its rendered text as [content], and the
    entries stand in descending order of their [last_modified] strings.
    The world is not touched. *)
Theorem old_tickets_are_all_listed_in_descending_order
  (env : Env) (files : list md_file) (w : World) :
  tickets_dir env = Ok files ->
  Forall readable files ->
  exists entries,
    serve env get_old_tickets_req w = (Ok (Answer (ok Json (JList entries))), w)
    /\ Permutation entries (map (old_ticket_entry (markdown env)) files)
    /\ Sorted not_older entries.
Proof.
  intros Hdir Hfiles.
  exists (sorted_desc (map (old_ticket_entry (markdown env)) files)).
  destruct (sorted_desc_spec (map (old_ticket_entry (markdown env)) files))
    as [Hs Hp].
  split; [|split; assumption].
  unfold serve, get_old_tickets_req.
  cbn [req_method req_path req_query req_body].
  rewrite dispatch_old_tickets.
  unfold respond, get_old_tickets, try_except, bind, lift, ret.
  rewrite Hdir, (read_tickets_readable _ _ Hfiles). reflexivity.
Qed.

Lemma old_tickets_are_all_listed_in_descending_order_witness :
  tickets_dir (env_with_files (Ok [lighting_file; render_file]))
  = Ok [lighting_file; render_file]
  /\ Forall readable [lighting_file; render_file]
  /\ exists entries,
       serve (env_with_files (Ok [lighting_file; render_file]))
         get_old_tickets_req sample_world
       = (Ok (Answer (ok Json (JList entries))), sample_world)
       /\ Permutation entries
            (map (old_ticket_entry
                    (markdown (env_with_files (Ok [lighting_file; render_file]))))
               [lighting_file; render_file])
       /\ Sorted not_older entries.
Proof.
  assert (Hfiles : Forall readable [lighting_file; render_file]).
  { repeat constructor; eexists; reflexivity. }
  split; [reflexivity|]. split; [exact Hfiles|].
  exact (old_tickets_are_all_listed_in_descending_order
           (env_with_files (Ok [lighting_file; render_file]))
           [lighting_file; render_file] sample_world eq_refl Hfiles).
Defined.

(** The newer file comes first although the directory lists it last. *)
Example newer_file_comes_first :
  exists first second,
    fst (serve (env_with_files (Ok [lighting_file; render_file]))
           get_old_tickets_req sample_world)
    = Ok (Answer (ok Json (JList [JDict first; JDict second])))
    /\ dict_get "id" first = Some (JStr "render-crash")
    /\ dict_get "id" second = Some (JStr "fix-lighting-bug").
Proof. do 2 eexists. split; [vm_compute; reflexivity|]. split; reflexivity. Qed.

(** X2: when the directory cannot be listed, or any one file cannot be
    read, [GET /api/old-tickets] answers 500 with the detail
    [Error reading ticket files: ] followed by the text of the exception,
    logs the same line, and gives none of the entries it had already
    built. *)
Theorem unreadable_archive_answers_500 (env : Env) (e : exn) (w : World) :
  archive_failure env e ->
  let line :=
    "Error reading ticket files: " ++ py_str (str_HTTPException env) e in
  serve env get_old_tickets_req w
  = (Ok (Answer {| status_code := 500; body := Detail line |}),
     {| clock := clock w; ticks := ticks w; logs := logs w ++ [line] |}).
Proof.
  intros Hfail line. subst line.
  unfold serve, get_old_tickets_req.
  cbn [req_method req_path req_query req_body].
  rewrite dispatch_old_tickets.
  unfold respond, get_old_tickets, try_except, bind, lift, ret, raise,
    logger_error, log.
  destruct Hfail as [Hdir | (good & bad & rest & Hdir & Hgood & Hbad)];
    rewrite Hdir; [reflexivity|].
  rewrite (read_tickets_unreadable _ _ _ _ _ Hgood Hbad). reflexivity.
Qed.

Lemma unreadable_archive_answers_500_witness :
  archive_failure (env_with_files (Ok [lighting_file; locked_file; render_file]))
    (PyError "PermissionError" "[Errno 13] Permission denied")
  /\ serve (env_with_files (Ok [lighting_file; locked_file; render_file]))
       get_old_tickets_req sample_world
     = (Ok (Answer {| status_code := 500;
                      body := Detail "Error reading ticket files: [Errno 13] Permission denied" |}),
        {| clock := clock sample_world; ticks := ticks sample_world;
           logs := logs sample_world
                   ++ ["Error reading ticket files: [Errno 13] Permission denied"] |}).
Proof.
  assert (H : archive_failure
                (env_with_files (Ok [lighting_file; locked_file; render_file]))
                (PyError "PermissionError" "[Errno 13] Permission denied")).
  { right. exists [lighting_file], locked_file, [render_file].
    split; [reflexivity|]. split; [|reflexivity].
    repeat constructor. eexists. reflexivity. }
  split; [exact H|].
  exact (unreadable_archive_answers_500 _ _ sample_world H).
Defined.

(** ** Routes and methods *)

(** Every route of the table is a mount or answers to GET, POST or PUT. *)
Lemma no_route_for_delete (r : route) :
  In r routes ->
  match r with
  | Mount _ e => e = EP_static
  | Route m _ _ => m <> DELETE
  end.
Proof.
  unfold routes. cbn [In]. intros H.
  repeat (destruct H as [<-|H]; [first [reflexivity | discriminate]|]).
  contradiction.
Qed.

(** X3: no handler is registered for DELETE.  A DELETE request, whatever
    its path, reaches no handler of the module; the only thing that can
    take it is the mounted static-file application. *)
Theorem delete_reaches_no_handler
  (path : list string) (e : endpoint) (params : path_params) :
  dispatch DELETE path = Dispatched e params -> e = EP_static.
Proof.
  intros H. apply dispatch_dispatched in H. apply dispatch_in_sound in H.
  destruct H as (r & Hin & Hm).
  destruct (matches_full _ _ _ _ _ Hm) as [Hep Hr].
  pose proof (no_route_for_delete r Hin) as Hno.
  destruct r as [prefix e'|m pattern e']; cbn in Hep; subst e'.
  - exact Hno.
  - destruct Hr as [Hr _]. symmetry in Hr. contradiction.
Qed.

Lemma delete_reaches_no_handler_witness :
  dispatch DELETE ["static"; "app.js"] = Dispatched EP_static []
  /\ EP_static = EP_static.
Proof.
  split; [reflexivity|].
  exact (delete_reaches_no_handler ["static"; "app.js"] EP_static [] eq_refl).
Defined.

(** A ticket cannot be deleted: the answer is 405. *)
Example delete_ticket_is_405 :
  forall env, fst (serve env (mk_request DELETE ["api"; "tickets"; "T1"] [] NoBody)
                     sample_world)
              = Ok (Answer {| status_code := 405;
                              body := Detail "Method Not Allowed" |}).
Proof. reflexivity. Qed.

(** X4: a handler of the module can be reached by some request exactly
    when it is not one of the three that an earlier route hides: the
    second [create_ticket], [get_tickets] and [get_ticket_statistics]. *)
Theorem handlers_reachable_but_three (e : endpoint) :
  (exists m path params, dispatch m path = Dispatched e params)
  <-> shadowed e = false.
Proof.
  split.
  - intros (m & path & params & H).
    destruct e; try reflexivity; exfalso.
    + exact (get_ticket_statistics_unreachable m path params H).
    + exact (get_tickets_unreachable m path params H).
    + exact (create_ticket_1806_unreachable m path params H).
  - intros H.
    exists (fst (request_for e)), (snd (request_for e)).
    destruct e; try discriminate H; eexists; vm_compute; reflexivity.
Qed.

(** ** Listing tickets *)

Lemma serve_list_tickets (env : Env) (query : list (string * string)) (w : World) :
  fst (serve env (list_tickets_req query) w)
  = Ok (Answer
          match optional_query TicketStatus_of query "status",
                optional_query TicketPriority_of query "priority" with
          | Some _, Some _ =>
              if optional_required env then internal_server_error
              else ok Tickets [sample_response "TICKET-123" (clock w (ticks w))
                                 (clock w (S (ticks w)))]
          | _, _ => {| status_code := 422; body := RequestErrors |}
          end).
Proof.
  unfold serve, list_tickets_req. cbn [req_method req_path req_query req_body].
  rewrite dispatch_list.
  destruct (optional_query TicketStatus_of query "status") as [st|];
    [|reflexivity].
  destruct (optional_query TicketPriority_of query "priority") as [pr|];
    [|reflexivity].
  unfold respond, list_tickets, bind, now, lift, ret, TicketResponse.new. cbn.
  destruct (optional_required env); reflexivity.
Qed.

(** X5: the filters of [GET /api/tickets] select nothing.  Whatever
    well-formed [status], [priority], [assigned_to] and [project_id] the
    query carries (of a name given more than once, the last value
    counts), the answer is the same list of one sample ticket
    [TICKET-123], whose status is open and whose priority is medium (or
    500 where the response model rejects the mock). *)
Theorem list_filters_select_nothing
  (env : Env) (query : list (string * string)) (w : World) :
  filters_well_formed query ->
  fst (serve env (list_tickets_req query) w)
  = fst (serve env (list_tickets_req []) w)
  /\ (optional_required env = false ->
      exists t,
        fst (serve env (list_tickets_req query) w) = Ok (Answer (ok Tickets [t]))
        /\ TicketResponse.id t = "TICKET-123"
        /\ TicketResponse.status t = OPEN
        /\ TicketResponse.priority t = MEDIUM
        /\ TicketResponse.assigned_to t = None
        /\ TicketResponse.project_id t = "project123").
Proof.
  intros [Hs Hp]. rewrite !serve_list_tickets. cbn [optional_query query_get].
  destruct (optional_query TicketStatus_of query "status"); [|contradiction].
  destruct (optional_query TicketPriority_of query "priority"); [|contradiction].
  split; [reflexivity|].
  intros ->. eexists. split; [reflexivity|]. repeat split.
Qed.

Lemma list_filters_select_nothing_witness :
  filters_well_formed
    [("status", "done"); ("status", "closed"); ("priority", "critical");
     ("assigned_to", "alice")]
  /\ fst (serve (sample_env false)
            (list_tickets_req
               [("status", "done"); ("status", "closed");
                ("priority", "critical"); ("assigned_to", "alice")])
            sample_world)
     = fst (serve (sample_env false) (list_tickets_req []) sample_world)
  /\ (optional_required (sample_env false) = false ->
      exists t,
        fst (serve (sample_env false)
               (list_tickets_req
                  [("status", "done"); ("status", "closed");
                   ("priority", "critical"); ("assigned_to", "alice")])
               sample_world)
        = Ok (Answer (ok Tickets [t]))
        /\ TicketResponse.id t = "TICKET-123"
        /\ TicketResponse.status t = OPEN
        /\ TicketResponse.priority t = MEDIUM
        /\ TicketResponse.assigned_to t = None
        /\ TicketResponse.project_id t = "project123").
Proof.
  assert (H : filters_well_formed
                [("status", "done"); ("status", "closed");
                 ("priority", "critical"); ("assigned_to", "alice")]).
  { split; discriminate. }
  split; [exact H|].
  exact (list_filters_select_nothing (sample_env false) _ sample_world H).
Defined.

(** The values that the two enums accept are exactly those of their
    members. *)
Lemma TicketStatus_of_value (v : string) (s : TicketStatus) :
  TicketStatus_of v = Some s <-> v = TicketStatus_value s.
Proof.
  unfold TicketStatus_of. split.
  - repeat match goal with
           | |- context [String.eqb v ?x] =>
               destruct (String.eqb_spec v x) as [->|]
           end; intros H; try discriminate H;
      injection H as <-; reflexivity.
  - intros ->. destruct s; reflexivity.
Qed.

Lemma TicketPriority_of_value (v : string) (p : TicketPriority) :
  TicketPriority_of v = Some p <-> v = TicketPriority_value p.
Proof.
  unfold TicketPriority_of. split.
  - repeat match goal with
           | |- context [String.eqb v ?x] =>
               destruct (String.eqb_spec v x) as [->|]
           end; intros H; try discriminate H;
      injection H as <-; reflexivity.
  - intros ->. destruct p; reflexivity.
Qed.

(** X6: a [status] or [priority] in the query of [GET /api/tickets]
    whose value (the last one, where the name is given more than once)
    is not the value of a member of its enum is rejected with 422 before
    the handler runs: the clock is not read and nothing is logged. *)
Theorem list_rejects_unknown_enum_values
  (env : Env) (query : list (string * string)) (v : string) (w : World) :
  (query_get "status" query = Some v
   /\ (forall s, v <> TicketStatus_value s))
  \/ (query_get "priority" query = Some v
      /\ (forall p, v <> TicketPriority_value p)) ->
  serve env (list_tickets_req query) w
  = (Ok (Answer {| status_code := 422; body := RequestErrors |}), w).
Proof.
  intros H.
  unfold serve, list_tickets_req. cbn [req_method req_path req_query req_body].
  rewrite dispatch_list. unfold optional_query.
  destruct H as [[Hq Hv] | [Hq Hv]]; rewrite Hq.
  - destruct (TicketStatus_of v) as [s|] eqn:Hs; [|reflexivity].
    apply TicketStatus_of_value in Hs. destruct (Hv s Hs).
  - destruct (TicketPriority_of v) as [p|] eqn:Hp.
    + apply TicketPriority_of_value in Hp. destruct (Hv p Hp).
    + destruct (query_get "status" query) as [sv|]; [|reflexivity].
      destruct (TicketStatus_of sv); reflexivity.
Qed.

Lemma list_rejects_unknown_enum_values_witness :
  ((query_get "status" [("status", "open"); ("status", "done")] = Some "done"
    /\ (forall s, "done" <> TicketStatus_value s))
   \/ (query_get "priority" [("status", "open"); ("status", "done")]
       = Some "done"
       /\ (forall p, "done" <> TicketPriority_value p)))
  /\ serve (sample_env false)
       (list_tickets_req [("status", "open"); ("status", "done")]) sample_world
     = (Ok (Answer {| status_code := 422; body := RequestErrors |}), sample_world).
Proof.
  assert (H : (query_get "status" [("status", "open"); ("status", "done")]
               = Some "done"
               /\ (forall s, "done" <> TicketStatus_value s))
              \/ (query_get "priority" [("status", "open"); ("status", "done")]
                  = Some "done"
                  /\ (forall p, "done" <> TicketPriority_value p))).
  { left. split; [reflexivity|]. intros []; discriminate. }
  split; [exact H|].
  exact (list_rejects_unknown_enum_values (sample_env false)
           [("status", "open"); ("status", "done")] "done" sample_world H).
Defined.

(** ** Creating a ticket *)

(** The ticket that [create_ticket] builds. *)
Lemma create_ticket_run (hash : datetime -> Z) (strict : bool)
  (x : TicketCreate.t) (user : string) (w : World) :
  create_ticket hash strict x user w
  = (Ok {| TicketResponse.id :=
             "TICKET-" ++ strftime_Ymd (clock w (ticks w)) ++ "-";
           TicketResponse.title := TicketCreate.title x;
           TicketResponse.description := TicketCreate.description x;
           TicketResponse.status := TicketCreate.status x;
           TicketResponse.priority := TicketCreate.priority x;
           TicketResponse.type_ := TicketCreate.type_ x;
           TicketResponse.created_by := user;
           TicketResponse.assigned_to := TicketCreate.assigned_to x;
           TicketResponse.project_id := TicketCreate.project_id x;
           TicketResponse.created_at := clock w (2 + ticks w);
           TicketResponse.updated_at := clock w (3 + ticks w);
           TicketResponse.due_date := TicketCreate.due_date x;
           TicketResponse.tags := TicketCreate.tags x;
           TicketResponse.environment := TicketCreate.environment x;
           TicketResponse.time_estimate := TicketCreate.time_estimate x;
           TicketResponse.time_spent := Some (0 # 1)%Q |},
     {| clock := clock w; ticks := 4 + ticks w; logs := logs w |}).
Proof.
  unfold create_ticket, bind, now, lift, TicketResponse.new.
  cbn -[py_prefix append strftime_Ymd].
  rewrite ticket_id_drops_hash. reflexivity.
Qed.

Lemma serve_create (env : Env) (x : TicketCreate.t)
  (query : list (string * string)) (w : World) :
  serve env (mk_request POST ["api"; "tickets"] query (CreateBody x)) w
  = respond (ok Ticket)
      (create_ticket (py_hash env) (optional_required env) x (caller_of query)) w.
Proof.
  unfold serve. cbn [req_method req_path req_query req_body].
  rewrite dispatch_create. reflexivity.
Qed.






(** Of several [current_user] in the query string the last one is the
    creator. *)
Example last_current_user_counts (env : Env) (x : TicketCreate.t) (w : World) :
  exists t,
    fst (serve env
           (mk_request POST ["api"; "tickets"]
              [("current_user", "alice"); ("current_user", "bob")]
              (CreateBody x)) w)
    = Ok (Answer (ok Ticket t))
    /\ TicketResponse.created_by t = "bob".
Proof.
  rewrite serve_create. unfold respond. rewrite create_ticket_run.
  eexists. split; reflexivity.
Qed.

(** ** The history of a ticket *)

(** X9: [GET /api/tickets/{id}/history] answers with three events, in
    the order created, status changed, comment added, stamped one day
    before the first, twelve hours before the second and two hours
    before the third of three successive readings of the clock.  With a
    clock that does not run backwards the events are in strictly
    ascending order of time, oldest first, and all lie before the last
    reading. *)
Theorem history_is_oldest_first (env : Env) (ticket_id : string) (w : World) :
  one_segment ticket_id = true ->
  clock w (ticks w) <= clock w (1 + ticks w) ->
  clock w (1 + ticks w) <= clock w (2 + ticks w) ->
  let t1 := Datetime.sub (clock w (ticks w)) (days 1) in
  let t2 := Datetime.sub (clock w (1 + ticks w)) (hours 12) in
  let t3 := Datetime.sub (clock w (2 + ticks w)) (hours 2) in
  serve env (get_history ticket_id) w
  = (Ok (Answer (ok Json
          (JDict
             [("ticket_id", JStr ticket_id);
              ("history",
               JList
                 [history_event t1 "created" "user123" "Ticket created";
                  history_event t2 "status_changed" "user456"
                    "Status changed from 'open' to 'in_progress'";
                  history_event t3 "comment_added" "user789"
                    "Added comment: 'Working on this now'"])]))),
     {| clock := clock w; ticks := 3 + ticks w; logs := logs w |})
  /\ t1 < t2 /\ t2 < t3 /\ t3 < clock w (2 + ticks w).
Proof.
  intros Hseg H12 H23 t1 t2 t3.
  split; [exact (serve_get_history env ticket_id w
                   (one_segment_not_empty ticket_id Hseg))|].
  subst t1 t2 t3. unfold Datetime.sub, days, hours, us_per_day. lia.
Qed.

Lemma history_is_oldest_first_witness :
  one_segment "TICKET-20240115-" = true
  /\ clock sample_world (ticks sample_world)
     <= clock sample_world (1 + ticks sample_world)
  /\ clock sample_world (1 + ticks sample_world)
     <= clock sample_world (2 + ticks sample_world)
  /\ serve (sample_env false) (get_history "TICKET-20240115-") sample_world
     = (Ok (Answer (ok Json
             (JDict
                [("ticket_id", JStr "TICKET-20240115-");
                 ("history",
                  JList
                    [history_event
                       (Datetime.sub (clock sample_world (ticks sample_world))
                          (days 1))
                       "created" "user123" "Ticket created";
                     history_event
                       (Datetime.sub
                          (clock sample_world (1 + ticks sample_world))
                          (hours 12))
                       "status_changed" "user456"
                       "Status changed from 'open' to 'in_progress'";
                     history_event
                       (Datetime.sub
                          (clock sample_world (2 + ticks sample_world))
                          (hours 2))
                       "comment_added" "user789"
                       "Added comment: 'Working on this now'"])]))),
        {| clock := clock sample_world; ticks := 3 + ticks sample_world;
           logs := logs sample_world |})
  /\ Datetime.sub (clock sample_world (ticks sample_world)) (days 1)
     < Datetime.sub (clock sample_world (1 + ticks sample_world)) (hours 12)
  /\ Datetime.sub (clock sample_world (1 + ticks sample_world)) (hours 12)
     < Datetime.sub (clock sample_world (2 + ticks sample_world)) (hours 2)
  /\ Datetime.sub (clock sample_world (2 + ticks sample_world)) (hours 2)
     < clock sample_world (2 + ticks sample_world).
Proof.
  assert (H1 : clock sample_world (ticks sample_world)
               <= clock sample_world (1 + ticks sample_world))
    by (vm_compute; discriminate).
  assert (H2 : clock sample_world (1 + ticks sample_world)
               <= clock sample_world (2 + ticks sample_world))
    by (vm_compute; discriminate).
  split; [reflexivity|]. split; [exact H1|]. split; [exact H2|].
  exact (history_is_oldest_first (sample_env false) "TICKET-20240115-"
           sample_world eq_refl H1 H2).
Defined.

(** ** The OAuth callback, when it succeeds *)

(** X10: the status of [GET /auth/callback] is settled by the two
    upstream calls and by the encoder of the framework.  It is 400
    exactly when the calls do not both succeed (the token endpoint
    answers 200 with a JSON dict that holds [access_token], and the
    profile endpoint, asked with that very token, answers 200 with
    JSON); when they do, it is 200 exactly when the framework can encode
    the dict of profile and token that the handler returns, and 500
    exactly when it cannot.  With 200 the body hands the profile and the
    access token itself to the caller, and the world is as it was. *)
Theorem callback_status_by_upstream_and_encoder
  (env : Env) (code : string) (w : World) :
  (status_of (fst (serve env (get_callback code) w)) = 200
   <-> exists user token,
         upstream_ok env code user token
         /\ encodes env (JDict [("user", user); ("access_token", token)]) = true)
  /\ (status_of (fst (serve env (get_callback code) w)) = 500
      <-> exists user token,
            upstream_ok env code user token
            /\ encodes env (JDict [("user", user); ("access_token", token)])
               = false)
  /\ (status_of (fst (serve env (get_callback code) w)) = 400
      <-> forall user token, ~ upstream_ok env code user token)
  /\ (forall user token,
        upstream_ok env code user token ->
        encodes env (JDict [("user", user); ("access_token", token)]) = true ->
        serve env (get_callback code) w
        = (Ok (Answer (ok Json (JDict [("user", user); ("access_token", token)]))),
           w)).
Proof.
  assert (Huniq : forall u tok u' tok',
             upstream_ok env code u tok -> upstream_ok env code u' tok' ->
             u' = u /\ tok' = tok).
  { intros u tok u' tok' H H'.
    pose proof (proj2 (callback_attempt_ok env code _ w)
                  (ex_intro _ u (ex_intro _ tok (conj H eq_refl)))) as H1.
    pose proof (proj2 (callback_attempt_ok env code _ w)
                  (ex_intro _ u' (ex_intro _ tok' (conj H' eq_refl)))) as H2.
    rewrite H1 in H2. injection H2 as -> ->. split; reflexivity. }
  rewrite serve_callback.
  destruct (fst (callback_attempt env code w)) as [v|e] eqn:Hrun.
  - apply callback_attempt_ok in Hrun. destruct Hrun as (u & tok & Hok & ->).
    unfold encoded.
    destruct (encodes env (JDict [("user", u); ("access_token", tok)]))
      eqn:Henc; cbn [fst status_of ok internal_server_error status_code].
    + split; [|split; [|split]].
      * split; [intros _; exists u, tok; split; assumption | reflexivity].
      * split; [discriminate|]. intros (u' & tok' & Hok' & Henc').
        destruct (Huniq _ _ _ _ Hok Hok') as [-> ->].
        rewrite Henc in Henc'. discriminate Henc'.
      * split; [discriminate|]. intros Hnone. destruct (Hnone u tok Hok).
      * intros u' tok' Hok' _.
        destruct (Huniq _ _ _ _ Hok Hok') as [-> ->]. reflexivity.
    + split; [|split; [|split]].
      * split; [discriminate|]. intros (u' & tok' & Hok' & Henc').
        destruct (Huniq _ _ _ _ Hok Hok') as [-> ->].
        rewrite Henc in Henc'. discriminate Henc'.
      * split; [intros _; exists u, tok; split; assumption | reflexivity].
      * split; [discriminate|]. intros Hnone. destruct (Hnone u tok Hok).
      * intros u' tok' Hok' Henc'.
        destruct (Huniq _ _ _ _ Hok Hok') as [-> ->].
        rewrite Henc in Henc'. discriminate Henc'.
  - assert (Hnot : forall u tok, ~ upstream_ok env code u tok).
    { intros u tok Hok.
      pose proof (proj2 (callback_attempt_ok env code _ w)
                    (ex_intro _ u (ex_intro _ tok (conj Hok eq_refl)))) as H1.
      rewrite Hrun in H1. discriminate H1. }
    cbn [fst status_of status_code].
    split; [|split; [|split]].
    + split; [discriminate|]. intros (u & tok & Hok & _).
      destruct (Hnot u tok Hok).
    + split; [discriminate|]. intros (u & tok & Hok & _).
      destruct (Hnot u tok Hok).
    + split; [intros _; exact Hnot | reflexivity].
    + intros u tok Hok. destruct (Hnot u tok Hok).
Qed.

(** ** Automated tasks *)

(** X11: [trigger_automated_task] accepts exactly five task types,
    spelled as in its table.  For any other type it raises 400
    [Unsupported task type] without reading the clock; for an accepted
    one it answers with the task [task_123], due five minutes after the
    one reading of the clock, whatever [target_id] and [parameters]
    are. *)
Theorem automated_task_types
  (task_type target_id : string) (parameters : json) (w : World) :
  (In task_type ["generate_thumbnails"; "update_dependencies"; "validate_scene";
                 "backup_files"; "sync_to_farm"] ->
   trigger_automated_task task_type target_id parameters w
   = (Ok (JDict [("task_id", JStr "task_123");
                 ("status", JStr "initiated");
                 ("estimated_completion",
                  JDatetime (clock w (ticks w) + 300000000))]),
      {| clock := clock w; ticks := S (ticks w); logs := logs w |}))
  /\ (~ In task_type ["generate_thumbnails"; "update_dependencies";
                      "validate_scene"; "backup_files"; "sync_to_farm"] ->
      trigger_automated_task task_type target_id parameters w
      = (Raised (HTTPException 400 "Unsupported task type"), w)).
Proof.
  unfold trigger_automated_task, supported_tasks. cbn [dict_get In].
  split.
  - intros H.
    repeat (destruct H as [<-|H]; [reflexivity|]). contradiction.
  - intros H.
    repeat match goal with
           | |- context [String.eqb task_type ?x] =>
               destruct (String.eqb_spec task_type x) as [Heq|_];
               [exfalso; apply H; rewrite Heq; cbn; tauto|]
           end.
    reflexivity.
Qed.

(** ** The OAuth debug endpoint *)




Lemma quote_plus_safe (s : string) :
  all_chars always_safe s = true -> quote_plus s = s.
Proof.
  induction s as [|c s IH]; [reflexivity|].
  cbn [all_chars quote_plus]. intros H. apply andb_true_iff in H.
  destruct H as [Hc Hs]. rewrite Hc, (IH Hs). reflexivity.
Qed.



(** X13: [debug_oauth] cuts the client id to its first five characters
    in the field [client_id], yet shows all of it in [full_auth_url]: for
    a client id of letters and digits, the URL reads
    [...authorize?client_id=<the whole id>&redirect_uri=...]. *)
Theorem debug_oauth_shows_the_whole_client_id
  (client_id : string) (client_secret : option string) (redirect_uri : string) :
  client_id <> "" ->
  all_chars always_safe client_id = true ->
  match debug_oauth (Some client_id) client_secret redirect_uri with
  | JDict d =>
      dict_get "client_id" d = Some (JStr (py_prefix 5 client_id ++ "..."))
      /\ (String.length (py_prefix 5 client_id) <= 5)%nat
      /\ dict_get "full_auth_url" d
         = Some (JStr ("https://discord.com/api/oauth2/authorize?client_id="
                       ++ client_id
                       ++ "&redirect_uri=" ++ quote_plus redirect_uri
                       ++ "&response_type=code&scope=identify+guilds"))
  | _ => False
  end.
Proof.
  intros Hne Hsafe. destruct client_id as [|c s]; [contradiction|].
  cbn [debug_oauth dict_get String.eqb Ascii.eqb Bool.eqb str_optional urlencode].
  split; [reflexivity|]. split.
  - unfold py_prefix. cbn [substring String.length].
    destruct s as [|c1 [|c2 [|c3 [|c4 s]]]]; cbn [substring String.length];
      try lia.
    destruct s; cbn; lia.
  - rewrite (quote_plus_safe _ Hsafe). reflexivity.
Qed.

Lemma debug_oauth_shows_the_whole_client_id_witness :
  "1303089786495565875" <> ""
  /\ all_chars always_safe "1303089786495565875" = true
  /\ match debug_oauth (Some "1303089786495565875") (Some "s3cr3t")
             "http://127.0.0.1:8000/auth/callback" with
     | JDict d =>
         dict_get "client_id" d = Some (JStr "13030...")
         /\ (String.length (py_prefix 5 "1303089786495565875") <= 5)%nat
         /\ dict_get "full_auth_url" d
            = Some (JStr "https://discord.com/api/oauth2/authorize?client_id=1303089786495565875&redirect_uri=http%3A%2F%2F127.0.0.1%3A8000%2Fauth%2Fcallback&response_type=code&scope=identify+guilds")
     | _ => False
     end.
Proof.
  split; [discriminate|]. split; [reflexivity|].
  exact (debug_oauth_shows_the_whole_client_id "1303089786495565875"
           (Some "s3cr3t") "http://127.0.0.1:8000/auth/callback"
           ltac:(discriminate) eq_refl).
Defined.

(** ** The dashboard script *)

Section ScriptFacts.

Import Dashboard.

Let one_line (c : ascii) : bool := negb (is_line_terminator c).

Lemma try_down_first {A} (lo n : nat) (f : nat -> option A) (r : A) :
  f (lo + n)%nat = Some r -> try_down lo n f = Some r.
Proof. intros H. destruct n; cbn [try_down]; rewrite H; reflexivity. Qed.

Lemma try_down_some {A} (lo n : nat) (f : nat -> option A) (r : A) :
  try_down lo n f = Some r ->
  exists k, (lo <= k <= lo + n)%nat /\ f k = Some r.
Proof.
  induction n as [|n IH]; cbn [try_down]; intros H.
  - destruct (f (lo + 0)%nat) eqn:Hf; [|discriminate H].
    exists (lo + 0)%nat. split; [lia | congruence].
  - destruct (f (lo + S n)%nat) eqn:Hf.
    + exists (lo + S n)%nat. split; [lia | congruence].
    + destruct (IH H) as (k & Hk & Hfk). exists k. split; [lia | exact Hfk].
Qed.

Lemma span_append (p : ascii -> bool) (a b : string) :
  all_chars p a = true -> span p (a ++ b) = (String.length a + span p b)%nat.
Proof.
  induction a as [|c a IH]; cbn; [reflexivity|].
  intros H. apply andb_true_iff in H. destruct H as [-> Ha].
  rewrite (IH Ha). reflexivity.
Qed.

Lemma take_append (a b : string) : take (String.length a) (a ++ b) = a.
Proof. induction a as [|c a IH]; cbn; [destruct b|rewrite IH]; reflexivity. Qed.

Lemma drop_append (a b : string) : drop (String.length a) (a ++ b) = b.
Proof. induction a as [|c a IH]; cbn; [destruct b; reflexivity | exact IH]. Qed.

Lemma span_at_eol (tail : string) : at_eol tail = true -> span one_line tail = O.
Proof.
  destruct tail as [|c tail]; [reflexivity|]. cbn. unfold one_line.
  intros ->. reflexivity.
Qed.

Lemma span_value (v rest : string) : is_value v = true -> span is_space (v ++ rest) = O.
Proof.
  destruct v as [|c v]; [discriminate|]. cbn.
  intros H. apply andb_true_iff in H. destruct H as [H _].
  apply negb_true_iff in H. rewrite H. reflexivity.
Qed.

Lemma value_one_line (v : string) :
  is_value v = true -> all_chars one_line v = true /\ exists n, String.length v = S n.
Proof.
  destruct v as [|c v]; [discriminate|]. unfold is_value.
  intros H. apply andb_true_iff in H. destruct H as [_ H].
  split; [exact H | eexists; reflexivity].
Qed.

(** The group takes a value up to the end of its line. *)
Lemma match_value (prev : option ascii) (v tail : string) (g : option string) :
  is_value v = true ->
  at_eol tail = true ->
  match_here [DotPlus; EOL] prev (v ++ tail) g = Some (Some v).
Proof.
  intros Hv Htail.
  destruct (value_one_line v Hv) as [Hline [n Hlen]].
  cbn [match_here]. fold one_line.
  rewrite (span_append one_line v tail Hline), (span_at_eol tail Htail), Hlen.
  cbn [Nat.add]. rewrite Nat.add_0_r.
  apply try_down_first. change (1 + n)%nat with (S n). rewrite <- Hlen.
  rewrite take_append, drop_append, Htail. reflexivity.
Qed.

Lemma match_here_ws (r : list re_item) (prev : option ascii) (s : string)
  (g : option string) :
  match_here (WsStar :: r) prev s g
  = try_down 0 (span is_space s)
      (fun k => match_here r (last_char prev (take k s)) (drop k s) g).
Proof. reflexivity. Qed.

(** [\s*] takes the white space in front of a value. *)
Lemma match_space_value (prev : option ascii) (ws v tail : string)
  (g : option string) :
  all_chars is_space ws = true ->
  is_value v = true ->
  at_eol tail = true ->
  match_here [WsStar; DotPlus; EOL] prev (ws ++ v ++ tail) g = Some (Some v).
Proof.
  intros Hws Hv Htail. rewrite match_here_ws.
  rewrite (span_append is_space ws _ Hws), (span_value v tail Hv), Nat.add_0_r.
  apply try_down_first. cbn [Nat.add]. rewrite drop_append.
  apply match_value; assumption.
Qed.

Lemma match_lit (label : string) (r : list re_item) (prev : option ascii)
  (s : string) (g : option string) :
  match_here (lit label ++ r) prev (label ++ s) g
  = match_here r (last_char prev label) s g.
Proof.
  revert prev. induction label as [|c label IH]; intros prev; [reflexivity|].
  cbn [lit app append match_here last_char]. rewrite Ascii.eqb_refl. apply IH.
Qed.

Lemma search_hit (r : list re_item) (prev : option ascii) (s : string)
  (g : option string) :
  match_here r prev s None = Some g -> search r prev s = Some g.
Proof. intros H. destruct s; cbn [search]; rewrite H; reflexivity. Qed.

(** The search walks over text in which the first character of the
    pattern does not occur. *)
Lemma search_skip (c0 : ascii) (r : list re_item) (pre s : string) :
  lacks c0 pre = true ->
  forall prev,
    search (Chr c0 :: r) prev (pre ++ s)
    = search (Chr c0 :: r) (last_char prev pre) s.
Proof.
  induction pre as [|c pre IH]; intros H prev; [reflexivity|].
  cbn [lacks all_chars] in H. apply andb_true_iff in H. destruct H as [Hc Hpre].
  apply negb_true_iff in Hc.
  cbn [append search match_here last_char]. rewrite Hc. apply IH. exact Hpre.
Qed.

Lemma group1_label (c0 : ascii) (label pre ws v tail : string) :
  lacks c0 pre = true ->
  all_chars is_space ws = true ->
  is_value v = true ->
  at_eol tail = true ->
  group1 (label_re (String c0 label))
    (pre ++ String c0 label ++ ws ++ v ++ tail) = Some v.
Proof.
  intros Hpre Hws Hv Htail. unfold group1, label_re.
  cbn [lit app]. rewrite (search_skip c0 _ pre _ Hpre).
  erewrite search_hit; [reflexivity|].
  change (Chr c0 :: (lit label ++ [WsStar; DotPlus; EOL])%list)
    with (lit (String c0 label) ++ [WsStar; DotPlus; EOL])%list.
  rewrite match_lit. apply match_space_value; assumption.
Qed.

Lemma match_heading (r : list re_item) (s : string) (g : option string) :
  match_here (BOL :: Chr "#" :: r) None (String "#" s) g
  = match_here r (Some "#"%char) s g.
Proof. reflexivity. Qed.

(** X14: a document that starts with [#], white space and a title in
    ASCII on the same line gives that title, whatever follows the
    line. *)
Theorem heading_line_gives_the_title (ws t tail : string) :
  all_chars is_space ws = true ->
  all_chars is_ascii t = true ->
  is_value t = true ->
  at_eol tail = true ->
  title (parseTicketContent ("#" ++ ws ++ t ++ tail)) = Some t.
Proof.
  intros Hws _ Ht Htail. unfold parseTicketContent. cbn [title].
  unfold group1, title_re. erewrite search_hit; [reflexivity|].
  cbn [append]. rewrite match_heading.
  apply match_space_value; assumption.
Qed.

(** X15: a line [Created by: v], [Created on: v], [Status: v] or
    [Tags: v] with [v] in ASCII gives [v] as author, creation date,
    status, or, split at the commas and trimmed, as tags, when the
    capital letter that the label starts with does not occur in the text
    before it. *)
Theorem labelled_line_gives_the_field (pre ws v tail : string) :
  all_chars is_space ws = true ->
  all_chars is_ascii v = true ->
  is_value v = true ->
  at_eol tail = true ->
  (lacks "C" pre = true ->
   author (parseTicketContent (pre ++ "Created by:" ++ ws ++ v ++ tail)) = Some v)
  /\ (lacks "C" pre = true ->
      created (parseTicketContent (pre ++ "Created on:" ++ ws ++ v ++ tail))
      = Some v)
  /\ (lacks "S" pre = true ->
      status (parseTicketContent (pre ++ "Status:" ++ ws ++ v ++ tail)) = Some v)
  /\ (lacks "T" pre = true ->
      tags (parseTicketContent (pre ++ "Tags:" ++ ws ++ v ++ tail))
      = map trim (split_comma v)).
Proof.
  intros Hws _ Hv Htail. unfold parseTicketContent.
  cbn [author created status tags].
  repeat split; intros Hpre.
  - exact (group1_label "C" "reated by:" pre ws v tail Hpre Hws Hv Htail).
  - exact (group1_label "C" "reated on:" pre ws v tail Hpre Hws Hv Htail).
  - exact (group1_label "S" "tatus:" pre ws v tail Hpre Hws Hv Htail).
  - rewrite (group1_label "T" "ags:" pre ws v tail Hpre Hws Hv Htail).
    reflexivity.
Qed.

End ScriptFacts.

Lemma heading_line_gives_the_title_witness :
  all_chars Dashboard.is_space " " = true
  /\ all_chars is_ascii "Fix lighting bug" = true
  /\ is_value "Fix lighting bug" = true
  /\ Dashboard.at_eol (LF ++ "Created by: alice") = true
  /\ Dashboard.title
       (Dashboard.parseTicketContent
          ("#" ++ " " ++ "Fix lighting bug" ++ LF ++ "Created by: alice"))
     = Some "Fix lighting bug".
Proof.
  split; [reflexivity|]. split; [reflexivity|]. split; [reflexivity|].
  split; [reflexivity|].
  exact (heading_line_gives_the_title " " "Fix lighting bug"
           (LF ++ "Created by: alice") eq_refl eq_refl eq_refl eq_refl).
Defined.

Lemma labelled_line_gives_the_field_witness :
  all_chars Dashboard.is_space " " = true
  /\ all_chars is_ascii "lighting, bug" = true
  /\ is_value "lighting, bug" = true
  /\ Dashboard.at_eol (LF ++ "Notes: none") = true
  /\ (lacks "C" ("# Fix lighting bug" ++ LF) = true ->
      Dashboard.author
        (Dashboard.parseTicketContent
           (("# Fix lighting bug" ++ LF) ++ "Created by:" ++ " "
            ++ "lighting, bug" ++ LF ++ "Notes: none"))
      = Some "lighting, bug")
  /\ (lacks "C" ("# Fix lighting bug" ++ LF) = true ->
      Dashboard.created
        (Dashboard.parseTicketContent
           (("# Fix lighting bug" ++ LF) ++ "Created on:" ++ " "
            ++ "lighting, bug" ++ LF ++ "Notes: none"))
      = Some "lighting, bug")
  /\ (lacks "S" ("# Fix lighting bug" ++ LF) = true ->
      Dashboard.status
        (Dashboard.parseTicketContent
           (("# Fix lighting bug" ++ LF) ++ "Status:" ++ " "
            ++ "lighting, bug" ++ LF ++ "Notes: none"))
      = Some "lighting, bug")
  /\ (lacks "T" ("# Fix lighting bug" ++ LF) = true ->
      Dashboard.tags
        (Dashboard.parseTicketContent
           (("# Fix lighting bug" ++ LF) ++ "Tags:" ++ " "
            ++ "lighting, bug" ++ LF ++ "Notes: none"))
      = map Dashboard.trim (Dashboard.split_comma "lighting, bug")).
Proof.
  split; [reflexivity|]. split; [reflexivity|]. split; [reflexivity|].
  split; [reflexivity|].
  exact (labelled_line_gives_the_field ("# Fix lighting bug" ++ LF) " "
           "lighting, bug" (LF ++ "Notes: none") eq_refl eq_refl eq_refl
           eq_refl).
Defined.

Section ScriptInvariants.

Import Dashboard.

Let one_line (c : ascii) : bool := negb (is_line_terminator c).

Lemma take_span (p : ascii -> bool) (s : string) :
  forall k, (k <= span p s)%nat -> all_chars p (take k s) = true.
Proof.
  induction s as [|c s IH]; intros [|k] Hk; try reflexivity.
  cbn [span] in Hk. destruct (p c) eqn:Hc; [|lia].
  cbn [take all_chars]. rewrite Hc, IH; [reflexivity | lia].
Qed.

Lemma take_not_empty (p : ascii -> bool) (s : string) (k : nat) :
  (1 <= k <= span p s)%nat -> take k s <> "".
Proof.
  destruct s as [|c s]; cbn [span]; [lia|].
  destruct k as [|k]; [lia|]. cbn [take]. discriminate.
Qed.

(** Whatever a pattern matches, its group holds what [(.+)] took. *)
Lemma match_here_captured (r : list re_item) :
  forall prev s g0 g,
    captured g0 -> match_here r prev s g0 = Some g -> captured g.
Proof.
  induction r as [|item r IH]; intros prev s g0 g Hg0 H.
  - cbn in H. injection H as <-. exact Hg0.
  - destruct item; cbn [match_here] in H.
    + destruct (at_bol prev); [eauto | discriminate H].
    + destruct (at_eol s); [eauto | discriminate H].
    + destruct s as [|c' rest]; [discriminate H|].
      destruct (Ascii.eqb c c'); [eauto | discriminate H].
    + apply try_down_some in H. destruct H as (k & _ & H). eauto.
    + destruct (span (fun c => negb (is_line_terminator c)) s) as [|n] eqn:Hspan;
        [discriminate H|].
      apply try_down_some in H. destruct H as (k & Hk & H).
      refine (IH _ _ _ _ _ H). split.
      * apply (take_not_empty (fun c => negb (is_line_terminator c))). lia.
      * apply take_span. lia.
Qed.

Lemma search_captured (r : list re_item) (s : string) :
  forall prev g, search r prev s = Some g -> captured g.
Proof.
  induction s as [|c s IH]; intros prev g H; cbn [search] in H.
  - destruct (match_here r prev "" None) eqn:Hm; [|discriminate H].
    injection H as <-. exact (match_here_captured r _ _ None _ I Hm).
  - destruct (match_here r prev (String c s) None) eqn:Hm.
    + injection H as <-. exact (match_here_captured r _ _ None _ I Hm).
    + exact (IH _ _ H).
Qed.

Lemma group1_captured (r : list re_item) (content : string) :
  captured (group1 r content).
Proof.
  unfold group1. destruct (search r None content) as [g|] eqn:H; [|exact I].
  exact (search_captured r content None g H).
Qed.

(** X16: whatever the content, a title, author, creation date or status
    that [parseTicketContent] finds is never empty and never runs over
    the end of a line. *)
Theorem found_fields_are_single_lines (content : string) :
  captured (title (parseTicketContent content))
  /\ captured (author (parseTicketContent content))
  /\ captured (created (parseTicketContent content))
  /\ captured (status (parseTicketContent content)).
Proof.
  unfold parseTicketContent. cbn [title author created status].
  repeat split; apply group1_captured.
Qed.

Lemma all_chars_drop (p : ascii -> bool) (s : string) :
  all_chars p s = true -> forall k, all_chars p (drop k s) = true.
Proof.
  induction s as [|c s IH]; intros H [|k]; try exact H; try reflexivity.
  cbn [all_chars] in H. apply andb_true_iff in H. cbn [drop]. apply IH, H.
Qed.

Lemma all_chars_trim_end (p : ascii -> bool) (s : string) :
  all_chars p s = true -> all_chars p (trim_end s) = true.
Proof.
  induction s as [|c s IH]; [reflexivity|].
  cbn [all_chars trim_end]. intros H. apply andb_true_iff in H.
  destruct H as [Hc Hs]. specialize (IH Hs).
  destruct (trim_end s); [destruct (is_space c); cbn; rewrite ?Hc; reflexivity|].
  cbn [all_chars] in *. rewrite Hc. exact IH.
Qed.

Lemma all_chars_trim (p : ascii -> bool) (s : string) :
  all_chars p s = true -> all_chars p (trim s) = true.
Proof.
  intros H. unfold trim. apply all_chars_trim_end, all_chars_drop, H.
Qed.

Lemma trim_end_cons (c : ascii) (s : string) :
  trim_end (String c s)
  = match trim_end s with
    | EmptyString => if is_space c then "" else String c ""
    | r => String c r
    end.
Proof. reflexivity. Qed.

Lemma trim_end_idempotent (s : string) : trim_end (trim_end s) = trim_end s.
Proof.
  induction s as [|c s IH]; [reflexivity|]. rewrite trim_end_cons.
  destruct (trim_end s) as [|c' r] eqn:Hr.
  - destruct (is_space c) eqn:Hc; [reflexivity|].
    rewrite trim_end_cons. cbn [trim_end]. rewrite Hc. reflexivity.
  - rewrite trim_end_cons, IH. reflexivity.
Qed.

Lemma span_drop_span (p : ascii -> bool) (s : string) :
  span p (drop (span p s) s) = O.
Proof.
  induction s as [|c s IH]; [reflexivity|]. cbn [span].
  destruct (p c) eqn:Hc; cbn [drop span]; [exact IH | rewrite Hc; reflexivity].
Qed.

Lemma span_trim_end (s : string) :
  span is_space s = O -> span is_space (trim_end s) = O.
Proof.
  destruct s as [|c s]; [reflexivity|]. cbn [span trim_end].
  destruct (is_space c) eqn:Hc; [discriminate|]. intros _.
  destruct (trim_end s); cbn [span]; rewrite Hc; reflexivity.
Qed.

Lemma trim_idempotent (s : string) : trim (trim s) = trim s.
Proof.
  unfold trim at 1.
  assert (H : span is_space (trim s) = O).
  { unfold trim. apply span_trim_end, span_drop_span. }
  rewrite H. cbn [drop]. unfold trim. apply trim_end_idempotent.
Qed.

Lemma split_comma_chars (p : ascii -> bool) (s : string) :
  all_chars p s = true -> Forall (fun t => all_chars p t = true) (split_comma s).
Proof.
  induction s as [|c s IH]; intros H; cbn [split_comma].
  - repeat constructor.
  - cbn [all_chars] in H. apply andb_true_iff in H. destruct H as [Hc Hs].
    specialize (IH Hs).
    destruct (Ascii.eqb c ","); [constructor; [reflexivity | exact IH]|].
    destruct (split_comma s) as [|h t].
    + repeat constructor. cbn [all_chars]. rewrite Hc. reflexivity.
    + inversion IH as [|? ? Hh Ht]; subst.
      constructor; [cbn [all_chars]; rewrite Hc; exact Hh | exact Ht].
Qed.

Lemma split_comma_no_comma (s : string) :
  Forall (fun t => lacks "," t = true) (split_comma s).
Proof.
  induction s as [|c s IH]; cbn [split_comma].
  - repeat constructor.
  - destruct (Ascii.eqb c ",") eqn:Hc; [constructor; [reflexivity | exact IH]|].
    assert (Hc' : negb (Ascii.eqb "," c) = true).
    { rewrite Ascii.eqb_sym, Hc. reflexivity. }
    destruct (split_comma s) as [|h t].
    + repeat constructor. unfold lacks. cbn [all_chars]. rewrite Hc'. reflexivity.
    + inversion IH as [|? ? Hh Ht]; subst.
      constructor; [|exact Ht].
      unfold lacks in *. cbn [all_chars]. rewrite Hc'. exact Hh.
Qed.

(** X17: whatever the content, every tag that [parseTicketContent]
    gives is trimmed (trimming it again changes nothing), holds no
    comma, and holds no line break. *)
Theorem tags_are_trimmed_and_comma_free (content t : string) :
  In t (tags (parseTicketContent content)) ->
  trim t = t
  /\ lacks "," t = true
  /\ all_chars (fun c => negb (is_line_terminator c)) t = true.
Proof.
  unfold parseTicketContent. cbn [tags].
  pose proof (group1_captured (label_re "Tags:") content) as Hcap.
  destruct (group1 (label_re "Tags:") content) as [v|]; [|contradiction].
  destruct Hcap as [_ Hline].
  intros Hin. apply in_map_iff in Hin. destruct Hin as (piece & <- & Hpiece).
  split; [apply trim_idempotent|]. split.
  - apply all_chars_trim.
    exact (proj1 (Forall_forall _ _) (split_comma_no_comma v) piece Hpiece).
  - apply all_chars_trim.
    exact (proj1 (Forall_forall _ _) (split_comma_chars _ v Hline) piece Hpiece).
Qed.

End ScriptInvariants.

Lemma tags_are_trimmed_and_comma_free_witness :
  In "bug" (Dashboard.tags (Dashboard.parseTicketContent lighting_doc))
  /\ Dashboard.trim "bug" = "bug"
  /\ lacks "," "bug" = true
  /\ all_chars (fun c => negb (Dashboard.is_line_terminator c)) "bug" = true.
Proof.
  assert (H : In "bug" (Dashboard.tags (Dashboard.parseTicketContent lighting_doc))).
  { rewrite parse_markdown_source. right. left. reflexivity. }
  split; [exact H|].
  exact (tags_are_trimmed_and_comma_free lighting_doc "bug" H).
Defined.
